(** * Proxyflare: the relay wire protocol, verified against the Python sources

    The development embeds two source files:

    - [src/proxyflare/client/transport.py]: the client-side transport
      ([ProxyflareTransport.handle_request] and its asynchronous twin), which
      rewrites an outbound request into a relay request;
    - [src/proxyflare/workers/python/worker.py]: the relay handler [on_fetch]
      with [generate_random_ip] and [create_error_response].

    Further modules embed the code around them: the pool of endpoints
    ([client/manager.py]), token validation ([validation.py]), the
    deployment service ([services/worker.py] with [cors.py]), the health
    check ([services/tester.py]) and the [delete] command
    ([cli/commands/delete.py]).  What these ask of the Cloudflare client,
    the file system and [httpx] is taken as input, and the calls they make
    are recorded.

    Both lean on library code: [urllib.parse] of CPython (modelled here after
    the 3.11/3.12 sources), [httpx.URL] and the [Headers] / [Response] /
    [fetch] objects of the Workers runtime.  Those are modelled in the modules
    [PyStr], [PyDict], [UrlLib], [Httpx] and [Js] below.

    Conventions.  A Python [str] is represented by the list of the bytes of
    its UTF-8 encoding, so percent-encoding works byte by byte as
    [quote_from_bytes] does, and [unquote] decodes the bytes it obtains as
    [bytes.decode("utf-8", "replace")] does, U+FFFD standing in for what is
    malformed.  One library behaviour falls outside this representation and
    is documented where it occurs: [str.lower] is modelled on ASCII letters
    only (header names and URL schemes are ASCII). *)

From Stdlib Require Import List String Ascii Bool Arith PeanoNat NArith Lia.
Import ListNotations.
Open Scope string_scope.
Open Scope list_scope.
Open Scope nat_scope.

(* ================================================================== *)
(** * Python strings *)
(* ================================================================== *)

Module PyStr.

Definition str := list ascii.

(** String literals are read as [str] through this coercion. *)
Coercion list_ascii_of_string : string >-> list.

Definition code (c : ascii) : nat := nat_of_ascii c.

Fixpoint eqb (a b : str) : bool :=
match a, b with
| [], [] => true
| x :: a', y :: b' => Ascii.eqb x y && eqb a' b'
| _, _ => false
end.

(** Python truthiness of a [str]: non-empty. *)
Definition truthy (s : str) : bool :=
match s with [] => false | _ :: _ => true end.

(** [c in s] for a one-character [c]. *)
Definition mem (c : ascii) (s : str) : bool := existsb (Ascii.eqb c) s.

(** [x in xs] for a list (or tuple, or frozenset) of strings. *)
Definition mem_str (x : str) (xs : list str) : bool := existsb (eqb x) xs.

Definition is_upper (c : ascii) : bool := (65 <=? code c) && (code c <=? 90).
Definition is_lower (c : ascii) : bool := (97 <=? code c) && (code c <=? 122).
Definition is_digit (c : ascii) : bool := (48 <=? code c) && (code c <=? 57).

(** [c.isascii() and c.isalpha()] *)
Definition is_ascii_alpha (c : ascii) : bool := is_upper c || is_lower c.

Definition is_ascii (c : ascii) : bool := code c <? 128.

(** [str.isascii] *)
Definition isascii (s : str) : bool := forallb is_ascii s.

Definition lower_char (c : ascii) : ascii :=
if is_upper c then ascii_of_nat (code c + 32) else c.

(** [str.lower], on ASCII letters. *)
Definition lower (s : str) : str := map lower_char s.

(** [s.startswith(p)] *)
Fixpoint startswith (p s : str) : bool :=
match p, s with
| [], _ => true
| x :: p', y :: s' => Ascii.eqb x y && startswith p' s'
| _ :: _, [] => false
end.

(** [s.lstrip(chars)] *)
Fixpoint lstrip (chars : str) (s : str) : str :=
match s with
| [] => []
| c :: s' => if mem c chars then lstrip chars s' else s
end.

(** [s.replace(c, "")] *)
Definition remove_char (c : ascii) (s : str) : str :=
filter (fun x => negb (Ascii.eqb x c)) s.

(** [s.replace(a, b)] for one-character [a] and [b]. *)
Definition replace_char (a b : ascii) (s : str) : str :=
map (fun x => if Ascii.eqb x a then b else x) s.

(** [s.partition(sep)] for a one-character separator: the text before the
    first [sep], whether [sep] was found, and the text after it.  When [sep]
    does not occur the result is [(s, false, "")], as in Python. *)
Fixpoint partition (sep : ascii) (s : str) : str * bool * str :=
match s with
| [] => ([], false, [])
| c :: s' =>
    if Ascii.eqb c sep then ([], true, s')
    else let '(b, f, a) := partition sep s' in (c :: b, f, a)
end.

(** [s.rpartition(sep)]: split at the last [sep]; [("", false, s)] when
    [sep] does not occur. *)
Fixpoint rpartition (sep : ascii) (s : str) : str * bool * str :=
match s with
| [] => ([], false, [])
| c :: s' =>
    let '(b, f, a) := rpartition sep s' in
    if f then (c :: b, true, a)
    else if Ascii.eqb c sep then ([], true, s')
    else ([], false, c :: a)
end.

(** [s.split(sep)] for a one-character separator; never returns [[]]. *)
Fixpoint split (sep : ascii) (s : str) : list str :=
match s with
| [] => [[]]
| c :: s' =>
    if Ascii.eqb c sep then [] :: split sep s'
    else match split sep s' with
         | [] => [[c]]
         | p :: ps => (c :: p) :: ps
         end
end.

(** [sep.join(parts)] *)
Fixpoint join (sep : str) (parts : list str) : str :=
match parts with
| [] => []
| [p] => p
| p :: ps => p ++ sep ++ join sep ps
end.

(** The longest prefix of [s] free of characters satisfying [stop], and the
    rest (which starts with the first stopping character, if any). *)
Fixpoint break_at (stop : ascii -> bool) (s : str) : str * str :=
match s with
| [] => ([], [])
| c :: s' =>
    if stop c then ([], s)
    else let '(a, b) := break_at stop s' in (c :: a, b)
end.

Fixpoint str_of_uint (d : Decimal.uint) : str :=
match d with
| Decimal.Nil => []
| Decimal.D0 d' => "0"%char :: str_of_uint d'
| Decimal.D1 d' => "1"%char :: str_of_uint d'
| Decimal.D2 d' => "2"%char :: str_of_uint d'
| Decimal.D3 d' => "3"%char :: str_of_uint d'
| Decimal.D4 d' => "4"%char :: str_of_uint d'
| Decimal.D5 d' => "5"%char :: str_of_uint d'
| Decimal.D6 d' => "6"%char :: str_of_uint d'
| Decimal.D7 d' => "7"%char :: str_of_uint d'
| Decimal.D8 d' => "8"%char :: str_of_uint d'
| Decimal.D9 d' => "9"%char :: str_of_uint d'
end.

(** [str(n)] for a non-negative [int]. *)
Definition str_of_nat (n : nat) : str := str_of_uint (Nat.to_uint n).

(** [int(s)] on a string of decimal digits; [None] stands for the
    [ValueError] Python raises on anything else. *)
Definition int_of_str (s : str) : option nat :=
match s with
| [] => None
| _ :: _ =>
    fold_left
      (fun acc c =>
         match acc with
         | Some n => if is_digit c then Some (10 * n + (code c - 48)) else None
         | None => None
         end)
      s (Some 0)
end.

(** ** UTF-8 *)

(** The code point U+FFFD, in UTF-8. *)
Definition REPLACEMENT : str :=
  [ascii_of_nat 239; ascii_of_nat 191; ascii_of_nat 189].

Definition is_continuation (c : ascii) : bool :=
(128 <=? code c) && (code c <=? 191).

(** [c2] may follow the lead byte [c1]: a continuation byte that makes
    neither an overlong form, nor a surrogate, nor a code point above
    U+10FFFF. *)
Definition second_ok (c1 c2 : ascii) : bool :=
(194 <=? code c1) && (code c1 <=? 244) && is_continuation c2
&& negb ((code c1 =? 224) && (code c2 <? 160))
&& negb ((code c1 =? 237) && (160 <=? code c2))
&& negb ((code c1 =? 240) && (code c2 <? 144))
&& negb ((code c1 =? 244) && (144 <=? code c2)).

Inductive utf8_class : Type :=
| Complete
| Prefix
| Malformed.

(** How the bytes [b] stand as the beginning of one UTF-8 sequence: the
    whole of it, a proper beginning, or neither. *)
Definition utf8_classify (b : list ascii) : utf8_class :=
match b with
| [c1] =>
    if code c1 <? 128 then Complete
    else if (194 <=? code c1) && (code c1 <=? 244) then Prefix
    else Malformed
| [c1; c2] =>
    if second_ok c1 c2
    then if code c1 <? 224 then Complete else Prefix
    else Malformed
| [c1; c2; c3] =>
    if second_ok c1 c2 && is_continuation c3 && (224 <=? code c1)
    then if code c1 <? 240 then Complete else Prefix
    else Malformed
| [c1; c2; c3; c4] =>
    if second_ok c1 c2 && is_continuation c3 && is_continuation c4
       && (240 <=? code c1)
    then Complete
    else Malformed
| _ => Malformed
end.

(** The decoder reads [c] with nothing pending: what it writes, and the
    bytes pending then. *)
Definition utf8_start (c : ascii) : str * list ascii :=
match utf8_classify [c] with
| Complete => ([c], [])
| Prefix => ([], [c])
| Malformed => (REPLACEMENT, [])
end.

(** The decoder reads [c] with the beginning [buf] of a sequence pending.
    A byte that cannot go on with [buf] ends it: U+FFFD is written for
    [buf], and [c] is read afresh. *)
Definition utf8_step (buf : list ascii) (c : ascii) : str * list ascii :=
match buf with
| [] => utf8_start c
| _ :: _ =>
    match utf8_classify (buf ++ [c]) with
    | Complete => (buf ++ [c], [])
    | Prefix => ([], buf ++ [c])
    | Malformed => let '(out, buf') := utf8_start c in (REPLACEMENT ++ out, buf')
    end
end.

(** The decoder of [bytes.decode("utf-8", "replace")], started with [buf]
    pending; the text it yields is written in UTF-8 again.  A sequence cut
    short by the end of the input gives one U+FFFD. *)
Fixpoint utf8_decode (buf : list ascii) (b : list ascii) : str :=
match b with
| [] => match buf with [] => [] | _ :: _ => REPLACEMENT end
| c :: b' => let '(out, buf') := utf8_step buf c in out ++ utf8_decode buf' b'
end.

(** [b.decode("utf-8", "replace")] *)
Definition decode_replace (b : list ascii) : str := utf8_decode [] b.

End PyStr.

Import PyStr.

(* ================================================================== *)
(** * Python dictionaries with string keys *)
(* ================================================================== *)

(** A [dict] keeps insertion order, which [urlencode] and header iteration
    expose, so it is an association list in which assignment to an existing
    key replaces the value in place and assignment to a new key appends. *)

Module PyDict.

Definition dict (V : Type) := list (str * V).

Definition keys {V} (d : dict V) : list str := map fst d.

(** [d.get(k)] *)
Fixpoint get {V} (k : str) (d : dict V) : option V :=
match d with
| [] => None
| (k', v) :: d' => if PyStr.eqb k k' then Some v else get k d'
end.

(** [k in d] *)
Definition contains {V} (k : str) (d : dict V) : bool :=
match get k d with Some _ => true | None => false end.

(** [d[k] = v] *)
Fixpoint set {V} (k : str) (v : V) (d : dict V) : dict V :=
match d with
| [] => [(k, v)]
| (k', v') :: d' =>
    if PyStr.eqb k k' then (k', v) :: d' else (k', v') :: set k v d'
end.

(** [d.update(other)] *)
Definition update {V} (d other : dict V) : dict V :=
fold_left (fun acc kv => set (fst kv) (snd kv) acc) other d.

(** The dict built by assigning the given items in order, as a dict
    comprehension or a dict display does. *)
Definition of_items {V} (items : list (str * V)) : dict V :=
update [] items.

(** Python truthiness of a dict: non-empty. *)
Definition truthy {V} (d : dict V) : bool :=
match d with [] => false | _ :: _ => true end.

End PyDict.

(* ================================================================== *)
(** * Exceptions *)
(* ================================================================== *)

Inductive exn : Type :=
| ValueError (msg : str)
| InvalidURL (msg : str)
| IDNAError (msg : str).

(** The outcome of a Python call: a value, or an exception that propagates. *)
Inductive result (A : Type) : Type :=
| Ok (a : A)
| Raise (e : exn).

Arguments Ok {A} a.
Arguments Raise {A} e.

Definition bind {A B} (r : result A) (k : A -> result B) : result B :=
match r with
| Ok a => k a
| Raise e => Raise e
end.

Notation "'let*' x ':=' r 'in' k" := (bind r (fun x => k))
  (at level 10, x pattern, r at level 100, k at level 200).

(* ================================================================== *)
(** * urllib.parse *)
(* ================================================================== *)

Module UrlLib.

Import PyDict.

(** Two checks of [urlsplit] consult tables of other standard modules
    ([ipaddress] for a bracketed host, [unicodedata] for NFKC normalisation
    of a non-ASCII netloc).  They are taken as parameters: [true] means the
    check passes, [false] that it raises [ValueError]. *)
Class NetlocChecks : Type := {
  check_bracketed_host : str -> bool;
  check_nfkc : str -> bool
}.

(** ** Percent-encoding *)

Definition ALWAYS_SAFE : str :=
  "ABCDEFGHIJKLMNOPQRSTUVWXYZabcdefghijklmnopqrstuvwxyz0123456789_.-~".

Definition hex_upper (n : nat) : ascii :=
if n <? 10 then ascii_of_nat (48 + n) else ascii_of_nat (55 + n).

(** [_Quoter.__missing__]: the byte itself when safe, else [%XX]. *)
Definition quoter (safe : str) (b : ascii) : str :=
if is_ascii b && (mem b ALWAYS_SAFE || mem b safe) then [b]
else ["%"%char; hex_upper (code b / 16); hex_upper (code b mod 16)].

(** [quote(string, safe)]; the early returns of [quote_from_bytes] (empty
    input, input made of safe bytes only) give the same result as the
    general path. *)
Definition quote (s : str) (safe : str) : str := flat_map (quoter safe) s.

(** [quote_plus(string, safe)] *)
Definition quote_plus (s : str) (safe : str) : str :=
if negb (mem " "%char s) then quote s safe
else replace_char " "%char "+"%char (quote s (safe ++ " ")).

Definition hex_value (c : ascii) : option nat :=
if is_digit c then Some (code c - 48)
else if (65 <=? code c) && (code c <=? 70) then Some (code c - 55)
else if (97 <=? code c) && (code c <=? 102) then Some (code c - 87)
else None.

(** [unquote_to_bytes(string)]: every [%] followed by two hexadecimal
    digits becomes the byte they denote; a [%] not followed by two such
    digits stays.  (Python splits on [%] and looks each two-character head
    up in [_hextobyte]; scanning left to right is the same function.) *)
Fixpoint unquote_to_bytes (s : str) : list ascii :=
match s with
| [] => []
| c :: s' =>
    if Ascii.eqb c "%"%char then
      match s' with
      | h :: l :: s'' =>
          match hex_value h, hex_value l with
          | Some a, Some b => ascii_of_nat (16 * a + b) :: unquote_to_bytes s''
          | _, _ => c :: unquote_to_bytes s'
          end
      | _ => c :: unquote_to_bytes s'
      end
    else c :: unquote_to_bytes s'
end.

(** What [unquote] makes of one maximal run of ASCII characters:
    [unquote_to_bytes(run).decode("utf-8", "replace")]. *)
Definition unquote_run (run : str) : str :=
decode_replace (unquote_to_bytes run).

(** The loop of [unquote] over the pieces of [_asciire.split(string)], read
    from the right: the run of ASCII characters [s] begins with, and what
    the rest of [s] becomes.  Characters outside ASCII are kept as they
    are. *)
Fixpoint unquote_parts (s : str) : str * str :=
match s with
| [] => ([], [])
| c :: s' =>
    let '(run, out) := unquote_parts s' in
    if is_ascii c then (c :: run, out)
    else ([], c :: unquote_run run ++ out)
end.

(** [unquote(string)], with the defaults [encoding='utf-8'] and
    [errors='replace']. *)
Definition unquote (s : str) : str :=
if negb (mem "%"%char s) then s
else let '(run, out) := unquote_parts s in unquote_run run ++ out.

(** [unquote_plus] *)
Definition unquote_plus (s : str) : str :=
unquote (replace_char "+"%char " "%char s).

(** ** Query strings *)

(** The body of the loop of [parse_qsl] with the defaults
    [keep_blank_values=False], [strict_parsing=False]: what one field
    [name_value] contributes. *)
Definition parse_field (name_value : str) : list (str * str) :=
if negb (PyStr.truthy name_value) then []
else
  let '(n, has_eq, v) := partition "="%char name_value in
  if negb has_eq then []
  else if PyStr.truthy v then [(unquote_plus n, unquote_plus v)]
  else [].

(** [parse_qsl(qs)], with [separator='&']. *)
Definition parse_qsl (qs : str) : list (str * str) :=
let query_args := if PyStr.truthy qs then split "&"%char qs else [] in
flat_map parse_field query_args.

(** The body of the loop of [parse_qs]. *)
Definition collect (parsed_result : dict (list str)) (nv : str * str) : dict (list str) :=
let '(name, value) := nv in
match get name parsed_result with
| Some vs => set name (vs ++ [value]) parsed_result
| None => set name [value] parsed_result
end.

(** [parse_qs(qs)]: the values of each name, in order of appearance. *)
Definition parse_qs (qs : str) : dict (list str) :=
fold_left collect (parse_qsl qs) [].

(** One [k + '=' + v] item of [urlencode]. *)
Definition encode_pair (kv : str * str) : str :=
quote_plus (fst kv) "" ++ "=" ++ quote_plus (snd kv) "".

(** [urlencode(query, doseq=True)] on a dict of lists of strings. *)
Definition urlencode_doseq (query : dict (list str)) : str :=
join "&"
  (flat_map
     (fun kv => map (fun elt => encode_pair (fst kv, elt)) (snd kv))
     query).


(** ** Splitting URLs *)

Record SplitResult : Type := mkSplit {
  s_scheme : str;
  s_netloc : str;
  s_path : str;
  s_query : str;
  s_fragment : str
}.

Record ParseResult : Type := mkParse {
  scheme : str;
  netloc : str;
  path : str;
  params : str;
  query : str;
  fragment : str
}.

(** [parsed._replace(query=q)] *)
Definition replace_query (p : ParseResult) (q : str) : ParseResult :=
mkParse (scheme p) (netloc p) (path p) (params p) q (fragment p).

Definition uses_netloc : list str :=
  [ "" : str; "ftp" : str; "http" : str; "gopher" : str; "nntp" : str;
    "telnet" : str; "imap" : str; "wais" : str; "file" : str; "mms" : str;
    "https" : str; "shttp" : str; "snews" : str; "prospero" : str;
    "rtsp" : str; "rtspu" : str; "rsync" : str; "svn" : str;
    "svn+ssh" : str; "sftp" : str; "nfs" : str; "git" : str;
    "git+ssh" : str; "ws" : str; "wss" : str ].

Definition uses_params : list str :=
  [ "" : str; "ftp" : str; "hdl" : str; "prospero" : str; "http" : str;
    "imap" : str; "https" : str; "shttp" : str; "rtsp" : str;
    "rtspu" : str; "sip" : str; "sips" : str; "mms" : str; "sftp" : str;
    "tel" : str ].

Definition scheme_chars : str :=
  "abcdefghijklmnopqrstuvwxyzABCDEFGHIJKLMNOPQRSTUVWXYZ0123456789+-.".

(** [_WHATWG_C0_CONTROL_OR_SPACE]: the code points 0 to 32. *)
Definition is_c0_control_or_space (c : ascii) : bool := code c <=? 32.

Fixpoint lstrip_c0 (s : str) : str :=
match s with
| [] => []
| c :: s' => if is_c0_control_or_space c then lstrip_c0 s' else s
end.

(** [_UNSAFE_URL_BYTES_TO_REMOVE]: tab, carriage return, line feed. *)
Definition remove_unsafe (s : str) : str :=
remove_char (ascii_of_nat 10)
  (remove_char (ascii_of_nat 13) (remove_char (ascii_of_nat 9) s)).

Definition invalid_ipv6 : exn := ValueError "Invalid IPv6 URL".

Section Splitting.

Context {NC : NetlocChecks}.

(** [_check_bracketed_netloc] *)
Definition check_bracketed_netloc (netloc : str) : result unit :=
let '(_, _, hostname_and_port) := rpartition "@"%char netloc in
let '(before_bracket, have_open_br, bracketed) :=
  partition "["%char hostname_and_port in
if have_open_br then
  if PyStr.truthy before_bracket then Raise invalid_ipv6
  else
    let '(hostname, _, port) := partition "]"%char bracketed in
    if PyStr.truthy port && negb (startswith ":" port) then Raise invalid_ipv6
    else if check_bracketed_host hostname then Ok tt
    else Raise (ValueError "invalid bracketed host")
else
  let '(hostname, _, _) := partition ":"%char hostname_and_port in
  if check_bracketed_host hostname then Ok tt
  else Raise (ValueError "invalid bracketed host").

(** [_checknetloc] *)
Definition checknetloc (netloc : str) : result unit :=
if negb (PyStr.truthy netloc) || isascii netloc then Ok tt
else if check_nfkc netloc then Ok tt
else Raise (ValueError "netloc contains invalid characters under NFKC normalization").

(** The scheme part of [urlsplit]: [url.find(':')] and the test that
    everything before the colon is a scheme. *)
Definition split_scheme (url : str) : str * str :=
let '(head, found, tail) := partition ":"%char url in
if found && PyStr.truthy head
   && match head with c :: _ => is_ascii_alpha c | [] => false end
   && forallb (fun c => mem c scheme_chars) head
then (lower head, tail)
else ([], url).

(** [_splitnetloc(url, 2)]: the netloc runs up to the first of [/?#]. *)
Definition splitnetloc (url : str) : str * str :=
break_at (fun c => mem c "/?#") (skipn 2 url).

(** The netloc part of [urlsplit], with its bracket checks. *)
Definition split_netloc (url : str) : result (str * str) :=
if startswith "//" url then
  let '(netloc, url) := splitnetloc url in
  if (mem "["%char netloc && negb (mem "]"%char netloc))
     || (mem "]"%char netloc && negb (mem "["%char netloc))
  then Raise invalid_ipv6
  else if mem "["%char netloc && mem "]"%char netloc then
    let* _ := check_bracketed_netloc netloc in Ok (netloc, url)
  else Ok (netloc, url)
else Ok ([], url).

(** [if sep in url: url, rest = url.split(sep, 1)] *)
Definition split_once (sep : ascii) (url : str) : str * str :=
let '(b, found, a) := partition sep url in
if found then (b, a) else (url, []).

(** [urlsplit(url)] *)
Definition urlsplit (url : str) : result SplitResult :=
let url := lstrip_c0 url in
let url := remove_unsafe url in
let '(scheme, url) := split_scheme url in
let* (netloc, url) := split_netloc url in
let '(url, fragment) := split_once "#"%char url in
let '(url, query) := split_once "?"%char url in
let* _ := checknetloc netloc in
Ok (mkSplit scheme netloc url query fragment).

(** [_splitparams] *)
Definition splitparams (url : str) : str * str :=
if mem "/"%char url then
  let '(dir, _, last) := rpartition "/"%char url in
  let '(b, found, a) := partition ";"%char last in
  if found then (dir ++ "/" ++ b, a) else (url, [])
else
  let '(b, _, a) := partition ";"%char url in (b, a).

(** [urlparse(url)] *)
Definition urlparse (url : str) : result ParseResult :=
let* sr := urlsplit url in
let '(url, params) :=
  if mem_str (s_scheme sr) uses_params && mem ";"%char (s_path sr)
  then splitparams (s_path sr)
  else (s_path sr, []) in
Ok (mkParse (s_scheme sr) (s_netloc sr) url params (s_query sr)
      (s_fragment sr)).

End Splitting.

(** [urlunsplit] *)
Definition urlunsplit (scheme netloc url query fragment : str) : str :=
let url :=
  if PyStr.truthy netloc
     || (PyStr.truthy scheme && mem_str scheme uses_netloc
         && negb (startswith "//" url))
  then
    let url :=
      if PyStr.truthy url && negb (startswith "/" url) then "/" ++ url
      else url in
    "//" ++ netloc ++ url
  else url in
let url := if PyStr.truthy scheme then scheme ++ ":" ++ url else url in
let url := if PyStr.truthy query then url ++ "?" ++ query else url in
let url := if PyStr.truthy fragment then url ++ "#" ++ fragment else url in
url.

(** [urlunparse] *)
Definition urlunparse (p : ParseResult) : str :=
let url :=
  if PyStr.truthy (params p) then path p ++ ";" ++ params p else path p in
urlunsplit (scheme p) (netloc p) url (query p) (fragment p).

End UrlLib.

(* ================================================================== *)
(** * httpx.URL *)
(* ================================================================== *)

(** An [httpx.URL] is modelled by the components its parser produces; the
    parser itself ([httpx.URL(text)], which raises [InvalidURL] on a text it
    rejects) is library code and is taken as an input where it is called.
    [u_query] and [u_fragment] are [None] when the URL has no [?] or [#]. *)

Module Httpx.

Record URL : Type := mkURL {
  u_scheme : str;
  u_userinfo : str;
  u_host : str;
  u_port : option nat;
  u_path : str;
  u_query : option str;
  u_fragment : option str
}.





(** [httpx.Headers]: a case-insensitive multi-map kept as a list. *)
Definition Headers := list (str * str).



Record Request : Type := mkRequest {
  method : str;
  url : URL;
  headers : Headers;
  content : str
}.

End Httpx.

(* ================================================================== *)
(** * The client transport (client/transport.py) *)
(* ================================================================== *)

Module Transport.

Import Httpx.


Section WithPool.

(** The response type, the wrapped pool transport ([self._pool]), which
    returns a response or raises, and two functions of the libraries: the
    parser [httpx.URL(text)], which raises [InvalidURL] on a text it
    rejects, and [idna.decode], which [url.host] calls. *)
Variable Response : Type.
Variable pool_handle_request : Request -> result Response.
Variable parse_url : str -> result URL.
Variable idna_decode : str -> result str.



End WithPool.

End Transport.

(* ================================================================== *)
(** * Objects of the Workers runtime (module [js]) *)
(* ================================================================== *)

Module Js.

Import PyDict.

(** A [Headers] object, seen through the two methods the handler uses. *)
Definition Headers := list (str * str).

(** [headers.entries()] *)
Definition entries (h : Headers) : list (str * str) := h.

(** [headers.get(name)]: names compare case-insensitively; [None] is the
    [null] of an absent header. *)
Definition headers_get (name : str) (h : Headers) : option str :=
match find (fun kv => PyStr.eqb (lower (fst kv)) (lower name)) h with
| Some kv => Some (snd kv)
| None => None
end.

(** The incoming [Request]. *)
Record Request : Type := mkRequest {
  method : str;
  url : str;
  headers : Headers;
  body : option str
}.

(** The [init] object handed to [fetch]. *)
Record FetchInit : Type := mkInit {
  init_method : str;
  init_headers : dict str;
  init_body : option str
}.

(** What [fetch] resolves to. *)
Record Fetched : Type := mkFetched {
  f_status : nat;
  f_statusText : str;
  f_headers : Headers;
  f_body : option str
}.

(** [await fetch(url, init)]: a response, or an exception whose [str(e)]
    is [msg]. *)
Inductive FetchResult : Type :=
| Resolved (r : Fetched)
| Rejected (msg : str).

(** JSON values, as far as the handler builds them. *)
#[warnings="-register-all"]
Inductive json : Type :=
| JString (s : str)
| JObject (fields : list (str * json)).

Inductive ResponseBody : Type :=
| BodyNull
| BodyStream (b : option str)
| BodyJson (data : list (str * json)).

(** The [Response] the handler returns. *)
Record Response : Type := mkResponse {
  status : nat;
  statusText : option str;
  resp_headers : dict str;
  resp_body : ResponseBody
}.

(** [Response.new(body, {status, headers})] *)
Definition Response_new (b : ResponseBody) (st : nat) (stt : option str)
  (h : dict str) : Response :=
mkResponse st stt h b.

(** [Response.json(data, {status, headers})] *)
Definition Response_json (data : list (str * json)) (st : nat)
  (h : dict str) : Response :=
mkResponse st None h (BodyJson data).

(** The environment bindings; [getattr(env, name, default)]. *)
Definition Env := dict str.

Definition getattr (env : Env) (name : str) (default : str) : str :=
match get name env with
| Some v => v
| None => default
end.

End Js.

(* ================================================================== *)
(** * The relay handler (workers/python/worker.py) *)
(* ================================================================== *)

Module Worker.

Import PyDict UrlLib Js.

Definition FILTERED_PARAMS : list str := [ "url" : str; "_cb" : str; "_t" : str ].

(** The [random] module: an unbounded supply of raw draws, of which
    [randint(lo, hi)] takes one and maps it into [lo..hi]. *)
Definition Random := nat -> nat.

Definition randint (lo hi : nat) (raw : nat) : nat := lo + raw mod (hi - lo + 1).

(** [generate_random_ip] *)
Definition generate_random_ip (random : Random) : str :=
join "." (map (fun i => str_of_nat (randint 1 255 (random i))) (seq 0 4)).

Definition DEFAULT_CORS : dict str :=
of_items
  [ ("Access-Control-Allow-Origin" : str, "*" : str);
    ("Access-Control-Allow-Methods" : str,
     "GET, POST, PUT, DELETE, OPTIONS, PATCH, HEAD" : str);
    ("Access-Control-Allow-Headers" : str, "*" : str) ].

(** [create_error_response(message, details, status, cors_headers)];
    [None] stands for an argument left at its default [None]. *)
Definition create_error_response (message : str)
  (details : option (dict json)) (status : nat)
  (cors_headers : option (dict str)) : Response :=
let body : dict json := of_items [("error" : str, JString message)] in
let body :=
  match details with
  | Some d => if PyDict.truthy d then update body d else body
  | None => body
  end in
let headers : dict str :=
  of_items [("Content-Type" : str, "application/json" : str)] in
let headers :=
  match cors_headers with
  | Some c => if PyDict.truthy c then update headers c
              else update headers DEFAULT_CORS
  | None => update headers DEFAULT_CORS
  end in
Response_json body status headers.

(** Python truthiness of [target_url], which is [None] or a [str]. *)
Definition truthy_opt (t : option str) : bool :=
match t with
| Some s => PyStr.truthy s
| None => false
end.

Definition not_filtered {V} (kv : str * V) : bool :=
negb (mem_str (fst kv) FILTERED_PARAMS).

Definition usage : dict json :=
of_items
  [ ("usage" : str,
     JObject
       [ ("query_param" : str, JString "?url=https://example.com");
         ("header" : str, JString "X-Target-URL: https://example.com");
         ("path" : str, JString "/https://example.com") ]) ].

(** Step 2 of [on_fetch], the loop over [request.headers.entries()]. *)
Definition prepare_headers (request_headers : Headers) : dict str :=
fold_left
  (fun headers kv =>
     let '(key, value) := kv in
     let key_lower := lower key in
     if mem_str key_lower
          [ "host" : str; "cf-connecting-ip" : str; "cf-ipcountry" : str;
            "cf-ray" : str; "cf-visitor" : str ]
     then headers
     else if PyStr.eqb key_lower "x-my-x-forwarded-for"
     then set "X-Forwarded-For" value headers
     else set key value headers)
  (entries request_headers) [].

(** [any(k.lower() == "x-forwarded-for" for k in headers)] *)
Definition has_forwarded_for (headers : dict str) : bool :=
existsb (fun k => PyStr.eqb (lower k) "x-forwarded-for") (keys headers).

(** Step 2, second half: the synthesized [X-Forwarded-For]. *)
Definition add_forwarded_for (random : Random) (headers : dict str) : dict str :=
if negb (has_forwarded_for headers)
then set "X-Forwarded-For" (generate_random_ip random) headers
else headers.

(** Steps 2 to 4 of [on_fetch]: the [init] object of the downstream
    [fetch], with the sanitized headers and the body policy. *)
Definition fetch_init (random : Random) (request : Request) : FetchInit :=
let headers := prepare_headers (headers request) in
let headers := add_forwarded_for random headers in
let method := method request in
let body :=
  if negb (mem_str method [ "GET" : str; "HEAD" : str ])
  then body request else None in
mkInit method headers body.

(** Step 6 of [on_fetch], the loop over [response.headers.entries()]. *)
Definition filter_response_headers (response_headers : Headers) : dict str :=
fold_left
  (fun new_headers kv =>
     let '(key, value) := kv in
     let key_lower := lower key in
     if negb (mem_str key_lower
                [ "content-encoding" : str; "content-length" : str;
                  "transfer-encoding" : str ])
     then set key value new_headers
     else new_headers)
  (entries response_headers) [].

(** The [cors_headers] dict of the success path. *)
Definition cors_headers (env : Env) : dict str :=
of_items
  [ ("Access-Control-Allow-Origin" : str, getattr env "CORS_ORIGIN" "*");
    ("Access-Control-Allow-Methods" : str,
     getattr env "CORS_METHODS" "GET, POST, OPTIONS");
    ("Access-Control-Allow-Headers" : str,
     getattr env "CORS_ALLOWED_HEADERS" "*") ].

(** What a run of the handler leaves behind: the response it returns and
    the calls it made to [fetch], oldest first. *)
Record Outcome : Type := mkOutcome {
  response : Response;
  fetch_calls : list (str * FetchInit)
}.

Section Handler.

Context {NC : NetlocChecks}.

(** Step 1.1 of [on_fetch]: the target named by the [url] query parameter,
    rebuilt with the filtered and merged query. *)
Definition target_from_query (query_params : dict (list str)) : result (option str) :=
match get "url" query_params with
| Some (u0 :: _) =>
    if PyStr.truthy u0 then
      let target_url := u0 in
      let* target_parsed := urlparse target_url in
      let filtered_qs :=
        of_items (filter not_filtered (parse_qs (query target_parsed))) in
      let extra_qs := of_items (filter not_filtered query_params) in
      let filtered_qs := update filtered_qs extra_qs in
      let new_query :=
        if PyDict.truthy filtered_qs then urlencode_doseq filtered_qs
        else [] in
      Ok (Some (urlunparse (replace_query target_parsed new_query)))
    else Ok None
| _ => Ok None
end.

(** Step 1 of [on_fetch]: target resolution.  [None] or [Some ""] is a
    falsy [target_url]. *)
Definition resolve_target (request : Request) : result (option str) :=
let* parsed_url := urlparse (url request) in
let query_params := parse_qs (query parsed_url) in
let* target_url := target_from_query query_params in
let target_url :=
  if negb (truthy_opt target_url)
  then headers_get "X-Target-URL" (headers request)
  else target_url in
let target_url :=
  if negb (truthy_opt target_url) && negb (PyStr.eqb (path parsed_url) "/")
  then
    let path := lstrip "/" (path parsed_url) in
    if startswith "http" path then Some path else target_url
  else target_url in
Ok target_url.

(** [on_fetch(request, env)], run against a [fetch] capability and a
    source of randomness. *)
Definition on_fetch (fetch : str -> FetchInit -> FetchResult)
  (random : Random) (request : Request) (env : Env) : result Outcome :=
if PyStr.eqb (method request) "OPTIONS" then
  Ok (mkOutcome (Response_new BodyNull 204 None DEFAULT_CORS) [])
else
  let* target_url := resolve_target request in
  if negb (truthy_opt target_url) then
    Ok (mkOutcome
          (create_error_response "Missing target URL" (Some usage) 400 None)
          [])
  else
    let target_url := match target_url with Some t => t | None => [] end in
    let init_opts := fetch_init random request in
    match fetch target_url init_opts with
    | Resolved response =>
        let new_headers := filter_response_headers (f_headers response) in
        let new_headers := update new_headers (cors_headers env) in
        Ok (mkOutcome
              (Response_new (BodyStream (f_body response))
                 (f_status response) (Some (f_statusText response))
                 new_headers)
              [(target_url, init_opts)])
    | Rejected e =>
        Ok (mkOutcome
              (create_error_response ("Proxy Error: " ++ e) None 502 None)
              [(target_url, init_opts)])
    end.

End Handler.

End Worker.

(* ================================================================== *)
(** * Specification-side vocabulary *)
(* ================================================================== *)

(** Predicates and reference functions in which the properties below are
    phrased, sample inputs for concrete runs, and the sentences of the
    specification that do not hold as they are worded.  These follow the
    wording of the specification, not the code. *)

Module Spec.

Import PyDict UrlLib Js Worker.

Fixpoint distinct (l : list str) : bool :=
match l with
| [] => true
| x :: l' => negb (mem_str x l') && distinct l'
end.

(** Header names as a [Headers] object of the runtime yields them: in lower
    case, each name once. *)
Definition headers_wf (h : Headers) : bool :=
forallb (fun k => PyStr.eqb (lower k) k) (map fst h) && distinct (map fst h).

(** The platform headers the specification names: Host, CF-Connecting-IP,
    CF-IPCountry, CF-Ray and CF-Visitor, in lower case. *)
Definition platform_headers : list str :=
  [ "host" : str; "cf-connecting-ip" : str; "cf-ipcountry" : str;
    "cf-ray" : str; "cf-visitor" : str ].

(** The response headers the specification names as never relayed:
    Content-Encoding, Content-Length and Transfer-Encoding, in lower
    case. *)
Definition unrelayed_headers : list str :=
  [ "content-encoding" : str; "content-length" : str;
    "transfer-encoding" : str ].


(** The request-header policy of the specification, one header at a time:
    platform headers are dropped, [X-My-X-Forwarded-For] is re-emitted as
    [X-Forwarded-For], anything else passes through as it is. *)
Definition sanitize_entry (kv : str * str) : list (str * str) :=
if mem_str (lower (fst kv)) platform_headers then []
else if PyStr.eqb (lower (fst kv)) "x-my-x-forwarded-for"
then [("X-Forwarded-For" : str, snd kv)]
else [kv].

Definition sanitized (h : Headers) : dict str := flat_map sanitize_entry h.

(** How many keys of [d] equal [name] up to case. *)
Definition count_named (name : str) (d : dict str) : nat :=
List.length (filter (fun k => PyStr.eqb (lower k) name) (keys d)).

Definition is_octet (n : nat) : bool := (1 <=? n) && (n <=? 255).

(** Four dot-separated decimal integers, each in [1..255]. *)
Definition dotted_quad (s : str) : bool :=
match map int_of_str (split "."%char s) with
| [Some a; Some b; Some c; Some d] =>
    is_octet a && is_octet b && is_octet c && is_octet d
| _ => false
end.


(** Reading [s] as UTF-8 with the beginning [buf] of a sequence pending:
    the bytes pending at the end, or [None] when some byte fits no
    sequence. *)
Fixpoint utf8_scan (buf : list ascii) (s : str) : option (list ascii) :=
match s with
| [] => Some buf
| c :: s' =>
    match utf8_classify (buf ++ [c]) with
    | Complete => utf8_scan [] s'
    | Prefix => utf8_scan (buf ++ [c]) s'
    | Malformed => None
    end
end.

(** [s] is well-formed UTF-8, as the encoding of every Python [str] is. *)
Definition utf8_valid (s : str) : bool :=
match utf8_scan [] s with
| Some [] => true
| _ => false
end.





(** Every [url] field of the raw query string [qs] has an empty value. *)
Definition url_fields_blank (qs : str) : bool :=
forallb
  (fun name_value =>
     let '(n, _, v) := partition "="%char name_value in
     negb (PyStr.eqb (unquote_plus n) "url") || negb (PyStr.truthy v))
  (split "&"%char qs).

(** The raw query string [qs] has a field [url=] with nothing after [=]. *)
Definition has_blank_url_field (qs : str) : bool :=
existsb
  (fun name_value =>
     let '(n, has_eq, v) := partition "="%char name_value in
     has_eq && PyStr.eqb (unquote_plus n) "url" && negb (PyStr.truthy v))
  (split "&"%char qs).




(** The path-embedded target: the request path without its leading
    slashes, if that begins with [http]. *)
Definition from_path (p : ParseResult) : option str :=
if startswith "http" (lstrip "/" (path p)) then Some (lstrip "/" (path p))
else None.

(** The checks of [urlsplit] that consult other modules, answered "valid". *)
Definition lax_checks : NetlocChecks :=
{| check_bracketed_host := fun _ => true; check_nfkc := fun _ => true |}.

(** ** Sample inputs for concrete runs *)

Definition sample_fetched : Fetched :=
mkFetched 200 "OK"
  [ ("content-encoding" : str, "gzip" : str);
    ("content-length" : str, "123" : str);
    ("transfer-encoding" : str, "chunked" : str);
    ("x-keep-this" : str, "true" : str) ]
  (Some ("OK" : str)).

(** A downstream that answers every fetch with [sample_fetched]. *)
Definition fetch_ok : str -> FetchInit -> FetchResult :=
fun _ _ => Resolved sample_fetched.

(** A downstream that cannot be reached. *)
Definition fetch_down : str -> FetchInit -> FetchResult :=
fun _ _ => Rejected "Network Error".

Definition random0 : Random := fun i => 41 * i + 7.

Definition get_request (u : str) (h : Headers) : Request :=
mkRequest "GET" u h None.




(** C6 as the specification words it: the header map of the downstream
    fetch is the sanitized request header map, nothing more. *)
Definition C6_as_stated : Prop :=
forall (NC : NetlocChecks) fetch random request env o t i,
  headers_wf (headers request) = true ->
  on_fetch fetch random request env = Ok o ->
  In (t, i) (fetch_calls o) ->
  init_headers i = sanitized (headers request).









End Spec.

(* ================================================================== *)
(** * Auxiliary definitions for the proofs *)
(* ================================================================== *)

Module Aux.

Import PyDict UrlLib Js Worker.

(** ** The ways a run of the handler ends *)

Section Outcomes.

Context {NC : NetlocChecks}.
Variable fetch : str -> FetchInit -> FetchResult.
Variable random : Random.
Variable request : Request.
Variable env : Env.

Definition preflight_outcome : Outcome :=
mkOutcome (Response_new BodyNull 204 None DEFAULT_CORS) [].

Definition missing_target_outcome : Outcome :=
mkOutcome (create_error_response "Missing target URL" (Some usage) 400 None) [].

Definition proxied_outcome (t : str) (r : Fetched) : Outcome :=
mkOutcome
  (Response_new (BodyStream (f_body r)) (f_status r) (Some (f_statusText r))
     (update (filter_response_headers (f_headers r)) (cors_headers env)))
  [(t, fetch_init random request)].

Definition proxy_error_outcome (t : str) (e : str) : Outcome :=
mkOutcome (create_error_response ("Proxy Error: " ++ e) None 502 None)
  [(t, fetch_init random request)].

(** The four ways in which a run of the handler ends with a response. *)
Inductive ends_with : Outcome -> Prop :=
| Preflight :
    method request = "OPTIONS" ->
    ends_with preflight_outcome
| MissingTarget t :
    method request <> "OPTIONS" ->
    resolve_target request = Ok t ->
    truthy_opt t = false ->
    ends_with missing_target_outcome
| Proxied t r :
    method request <> "OPTIONS" ->
    resolve_target request = Ok (Some t) ->
    PyStr.truthy t = true ->
    fetch t (fetch_init random request) = Resolved r ->
    ends_with (proxied_outcome t r)
| ProxyError t e :
    method request <> "OPTIONS" ->
    resolve_target request = Ok (Some t) ->
    PyStr.truthy t = true ->
    fetch t (fetch_init random request) = Rejected e ->
    ends_with (proxy_error_outcome t e).

End Outcomes.

(** ** Loop bodies and character classes *)


(** The body of the loop of [prepare_headers]. *)
Definition prepare_step (headers : dict str) (kv : str * str) : dict str :=
let '(key, value) := kv in
let key_lower := lower key in
if mem_str key_lower Spec.platform_headers then headers
else if PyStr.eqb key_lower "x-my-x-forwarded-for"
then set "X-Forwarded-For" value headers
else set key value headers.




End Aux.

(* ================================================================== *)
(** * Exceptions and library calls of the client and the tools *)
(* ================================================================== *)

(** The modules below embed [client/manager.py], [validation.py],
    [services/worker.py], [services/tester.py] and
    [cli/commands/delete.py].  They raise more kinds of exception than the
    relay handler does, and they call libraries (the Cloudflare client, the
    file system, [httpx]) whose answers are taken as inputs. *)

Module Exc.

(** An exception, with its [str(e)]. *)
Inductive error : Type :=
| EValueError (msg : str)
| EFileNotFoundError (msg : str)
| ERuntimeError (msg : str)
| ESubdomainMissingError (msg : str)
| EWorkerError (msg : str)
| EOSError (msg : str).

(** [str(e)] *)
Definition message (e : error) : str :=
match e with
| EValueError m | EFileNotFoundError m | ERuntimeError m
| ESubdomainMissingError m | EWorkerError m | EOSError m => m
end.

(** The outcome of a call of this repository: a value or an exception. *)
Inductive res (A : Type) : Type :=
| Val (a : A)
| Exn (e : error).

Arguments Val {A} a.
Arguments Exn {A} e.

(** The outcome of a library call: what it returned, or the [str(e)] of
    the exception it raised. *)
Inductive answer (A : Type) : Type :=
| Returned (a : A)
| Failed (msg : str).

Arguments Returned {A} a.
Arguments Failed {A} msg.

End Exc.

(* ================================================================== *)
(** * The pool of relay endpoints (client/manager.py) *)
(* ================================================================== *)

Module Manager.

Import Exc.

(** The [source] argument of the constructor: a list of URLs, or the path
    of a JSON file ([str] or [Path]). *)
Inductive Source : Type :=
| SourceList (urls : list str)
| SourcePath (path : str).

Section Files.

(** The file system and the [WorkerResultFile] schema, as far as
    [load_from_file] consults them: what [Path.exists] gives for the path
    (it raises [OSError] when the path cannot be examined, as for a name
    that is too long), and what [read_text] followed by
    [model_validate_json] gives for it, reduced to the [url] of each
    record. *)
Variable path_exists : str -> answer bool.
Variable read_records : str -> answer (list str).

(** [load_from_file(path)]: the new value of [self.workers]; [path] is
    the text of [Path(path)].  The call of [exists] is outside the [try]:
    what it raises propagates as it is. *)
Definition load_from_file (path : str) : res (list str) :=
match path_exists path with
| Failed e => Exn (EOSError e)
| Returned found =>
    if negb found
    then Exn (EFileNotFoundError ("Worker file not found: " ++ path))
    else
      match read_records path with
      | Returned urls => Val urls
      | Failed e => Exn (EValueError ("Failed to parse worker file: " ++ e))
      end
end.

(** [ProxyflareWorkersManager(source)]: the [workers] of the new manager. *)
Definition __init__ (source : Source) : res (list str) :=
let workers :=
  match source with
  | SourceList urls => Val urls
  | SourcePath path => load_from_file path
  end in
match workers with
| Val workers =>
    if negb (match workers with [] => false | _ :: _ => true end)
    then Exn (EValueError "No workers found in the provided source.")
    else Val workers
| Exn e => Exn e
end.

End Files.

End Manager.

(* ================================================================== *)
(** * Token validation (validation.py) *)
(* ================================================================== *)

Module Validation.

Import Exc.

Definition WORKER_PERMISSIONS : list str :=
  [ "Workers Routes Write" : str; "API Tokens Read" : str;
    "Workers Scripts Write" : str; "Account Settings Read" : str ].

(** What [token_resource.verify()] returns, as far as it is read. *)
Record VerifyResponse : Type := mkVerify {
  verify_id : str;
  verify_status : str
}.

(** What [token_resource.get(token_id)] returns, as far as it is read. *)
Record PermissionGroup : Type := mkGroup { group_name : option str }.

Record Policy : Type := mkPolicy {
  effect : str;
  permission_groups : list PermissionGroup
}.

Record Token : Type := mkToken { policies : option (list Policy) }.

(** The [ValueError]s of this module.  The text of the last one ends with
    the [repr] of a Python [set], whose order of elements is not fixed, so
    the set is kept instead of the text. *)
Inductive failure : Type :=
| ValueError_text (msg : str)
| Missing_permissions (missing : list str).

Inductive checked (A : Type) : Type :=
| Passed (a : A)
| Refused (f : failure).

Arguments Passed {A} a.
Arguments Refused {A} f.

(** [verify_token], given what [token_resource.verify()] returned. *)
Definition verify_token (verify_response : option VerifyResponse) : checked str :=
match verify_response with
| None => Refused (ValueError_text "Token verification failed.")
| Some r =>
    let token_id := verify_id r in
    if negb (PyStr.eqb (verify_status r) "active")
    then Refused (ValueError_text
                    ("Token is not active. Status: " ++ verify_status r))
    else Passed token_id
end.

(** A Python [set] of strings: a list without repetition. *)
Definition set_add (x : str) (s : list str) : list str :=
if mem_str x s then s else s ++ [x].

(** [s.update(xs)] *)
Definition set_update (s : list str) (xs : list str) : list str :=
fold_left (fun acc x => set_add x acc) xs s.

(** The generator handed to [current_permissions.update]: the names of the
    groups that have one. *)
Definition named_groups (policy : Policy) : list str :=
flat_map
  (fun permission_group =>
     match group_name permission_group with
     | Some n => if PyStr.truthy n then [n] else []
     | None => []
     end)
  (permission_groups policy).

(** The loop of [check_token_permissions] over the policies. *)
Definition granted_permissions (policies : list Policy) : list str :=
fold_left
  (fun current_permissions policy =>
     if negb (PyStr.eqb (effect policy) "allow") then current_permissions
     else set_update current_permissions (named_groups policy))
  policies [].

(** [check_token_permissions], given what [token_resource.get] returned. *)
Definition check_token_permissions (token_response : option Token) : checked unit :=
match token_response with
| None => Refused (ValueError_text "Token policies not found.")
| Some t =>
    match policies t with
    | None => Refused (ValueError_text "Token policies not found.")
    | Some ps =>
        let current_permissions := granted_permissions ps in
        let missing_permissions :=
          filter (fun p => negb (mem_str p current_permissions))
            WORKER_PERMISSIONS in
        match missing_permissions with
        | [] => Passed tt
        | _ :: _ => Refused (Missing_permissions missing_permissions)
        end
    end
end.

End Validation.

(* ================================================================== *)
(** * Retrying (the [tenacity] decorator) *)
(* ================================================================== *)

Module Tenacity.

(** What a call of a function decorated with
    [@retry(stop=stop_after_attempt(n))] ends in: the value of the first
    attempt that returns, or [RetryError] around the last exception once
    [n] attempts have raised. *)
Inductive retried (A E : Type) : Type :=
| Done (a : A)
| RetryError (last : E).

Arguments Done {A E} a.
Arguments RetryError {A E} last.

Section Retry.

Variables St A E Ev : Type.

(** The [k]-th attempt (counted from 0), run from a state of the object:
    its outcome, the state it leaves and the calls it made. *)
Variable attempt : nat -> St -> (A + E) * St * list Ev.

(** [more] further attempts are allowed after this one.  The waiting
    between attempts has no effect on what is modelled. *)
Fixpoint retry_from (more : nat) (k : nat) (st : St)
  : retried A E * St * list Ev :=
let '(r, st', evs) := attempt k st in
match r with
| inl a => (Done a, st', evs)
| inr e =>
    match more with
    | 0 => (RetryError e, st', evs)
    | S more' =>
        let '(r2, st2, evs2) := retry_from more' (S k) st' in
        (r2, st2, evs ++ evs2)
    end
end.

(** [stop_after_attempt(3)] *)
Definition retry3 (st : St) : retried A E * St * list Ev := retry_from 2 0 st.

End Retry.

End Tenacity.

(* ================================================================== *)
(** * The deployment service (services/worker.py, cors.py) *)
(* ================================================================== *)

Module Service.

Import PyDict Exc.

(** [CORS_HEADERS] of [cors.py]. *)
Definition CORS_HEADERS : dict str :=
of_items
  [ ("Access-Control-Allow-Origin" : str, "*" : str);
    ("Access-Control-Allow-Methods" : str,
     "GET, POST, PUT, DELETE, OPTIONS, PATCH, HEAD" : str);
    ("Access-Control-Allow-Headers" : str, "*" : str) ].

(** [d[k]] on a dict that has the key. *)
Definition getitem (k : str) (d : dict str) : str :=
match get k d with Some v => v | None => [] end.

(** A script of the account, as [scripts.list] reports it.  Time stamps
    and the usage model are carried as text. *)
Record Script : Type := mkScript {
  script_id : option str;
  script_created_on : option str;
  script_modified_on : option str;
  script_usage_model : option str
}.

(** The dict [list_workers] builds for a script; its four keys are always
    there. *)
Record WorkerInfo : Type := mkInfo {
  w_id : str;
  w_created_on : option str;
  w_modified_on : option str;
  w_usage_model : option str
}.

Record Binding : Type := mkBinding {
  binding_type : str;
  binding_name : str;
  binding_text : str
}.

Record Metadata : Type := mkMetadata {
  md_main_module : str;
  md_bindings : list Binding;
  md_compatibility_date : str;
  md_compatibility_flags : list str
}.

(** A value of the [files] dict: file name, content, content type. *)
Definition FilePart : Type := str * str * str.

(** The calls made on the Cloudflare client; every one carries
    [account_id=self.account_id]. *)
Inductive ApiCall : Type :=
| ScriptsList
| ScriptsDelete (script_name : str)
| ScriptsUpdate (script_name : str) (metadata : Metadata)
    (files : dict FilePart)
| ScriptSubdomainCreate (script_name : str)
| SubdomainsGet.

(** [string.ascii_lowercase] *)
Definition ascii_lowercase : str := "abcdefghijklmnopqrstuvwxyz".

(** [secrets.choice(seq)], where [raw] is the random number behind it. *)
Definition choice (seq : str) (raw : nat) : ascii :=
nth (raw mod List.length seq) seq "a"%char.

(** [generate_worker_name]; [now] is [int(time.time())] and [random i] the
    random number behind the [i]-th letter. *)
Definition generate_worker_name (worker_prefix : str) (now : nat)
  (random : nat -> nat) : str :=
let timestamp := str_of_nat now in
let random_suffix :=
  map (fun i => choice ascii_lowercase (random i)) (seq 0 6) in
worker_prefix ++ "-" ++ timestamp ++ "-" ++ random_suffix.

(** [name.startswith(f"{self.worker_prefix}-")] *)
Definition has_prefix (worker_prefix name : str) : bool :=
startswith (worker_prefix ++ "-") name.

(** The body of the loop of [list_workers]. *)
Definition list_entry (worker_prefix : str) (script : Script) : list WorkerInfo :=
match script_id script with
| None => []
| Some i =>
    if negb (PyStr.truthy i) || negb (has_prefix worker_prefix i) then []
    else [mkInfo i (script_created_on script) (script_modified_on script)
            (script_usage_model script)]
end.

(** [list_workers], given the answer of [scripts.list]. *)
Definition list_workers (worker_prefix : str)
  (scripts_list : answer (list Script))
  : res (list WorkerInfo) * list ApiCall :=
match scripts_list with
| Returned result =>
    (Val (flat_map (list_entry worker_prefix) result), [ScriptsList])
| Failed e =>
    (Exn (ERuntimeError ("Failed to list workers: " ++ e)), [ScriptsList])
end.

(** [delete_worker(name)], given how [scripts.delete] answers for a name. *)
Definition delete_worker (worker_prefix : str)
  (scripts_delete : str -> answer unit) (name : str)
  : res unit * list ApiCall :=
if negb (has_prefix worker_prefix name) then
  (Exn (EValueError
          ("Worker '" ++ name
           ++ "' does not belong to this proxyflare instance (prefix: '"
           ++ worker_prefix ++ "-'). Deletion denied.")),
   [])
else
  match scripts_delete name with
  | Returned _ => (Val tt, [ScriptsDelete name])
  | Failed e =>
      (Exn (ERuntimeError ("Failed to delete worker " ++ name ++ ": " ++ e)),
       [ScriptsDelete name])
  end.

Definition newline : str := [ascii_of_nat 10].

(** U+2192 in UTF-8. *)
Definition arrow : str := [ascii_of_nat 226; ascii_of_nat 134; ascii_of_nat 146].

Definition SUBDOMAIN_MISSING : str :=
"Workers.dev subdomain is not configured for this account." ++ newline
++ "Please set it up manually in the Cloudflare dashboard:" ++ newline
++ "  Workers & Pages " ++ arrow ++ " Overview " ++ arrow
++ " Change subdomain".

(** [ensure_subdomain], from the cached [self._subdomain] and the answer
    of [subdomains.get]: [Returned None] is a [None] in place of the
    subdomain record, [Returned (Some s)] a record whose [subdomain] is
    [s].  The result comes with the new [self._subdomain]. *)
Definition ensure_subdomain (cached : option str)
  (subdomains_get : answer (option (option str)))
  : res str * option str * list ApiCall :=
let missing : res str * option str * list ApiCall :=
  (Exn (ESubdomainMissingError SUBDOMAIN_MISSING), cached, [SubdomainsGet]) in
if Worker.truthy_opt cached
then (Val (match cached with Some s => s | None => [] end), cached, [])
else
  match subdomains_get with
  | Returned (Some (Some s)) =>
      if PyStr.truthy s then (Val s, Some s, [SubdomainsGet]) else missing
  | _ => missing
  end.

(** An entry of [WORKER_META] ([constants.py]), as far as it is read
    here. *)
Record WorkerMeta : Type := mkMeta {
  main_module : str;
  source_file : str;
  wasm_file : option str;
  compatibility_flags : list str
}.

(** What reading a packaged resource ends in.  [resources.files(pkg)] and
    [read_bytes] raise [ModuleNotFoundError] or [KeyError] for a package
    that is not there and [FileNotFoundError] for a file that is not
    there; anything else they raise is kept by its text. *)
Inductive ReadResult : Type :=
| ReadBytes (content : str)
| NoPackage
| NoFile
| ReadRaises (msg : str).

(** An exception of the library that is let through: one raised while
    reading a resource, or [UnicodeDecodeError]. *)
Inductive LibraryFailure : Type :=
| ReadFailure (r : ReadResult)
| UnicodeDecodeError.

(** How a call that reads resources ends: with a value, with an exception
    of this repository, or with one of the library, which passes
    through. *)
Inductive loaded (A : Type) : Type :=
| Loaded (a : A)
| LoadError (e : error)
| LibraryError (f : LibraryFailure).

Arguments Loaded {A} a.
Arguments LoadError {A} e.
Arguments LibraryError {A} f.

Section Source.

(** [WORKER_META] as the dict it is, the packaged resources by package
    and file name, and whether a content decodes as UTF-8. *)
Variable WORKER_META : dict WorkerMeta.
Variable read_resource : str -> str -> ReadResult.
Variable utf8_valid : str -> bool.

(** [_get_resource_source] *)
Definition _get_resource_source (worker_type : str) (meta : WorkerMeta)
  : loaded (option str * option str) :=
let pkg_name :=
  if PyStr.eqb worker_type "rust" then "proxyflare.workers.rust.build" : str
  else "proxyflare.workers." ++ worker_type in
let filename :=
  if PyStr.eqb worker_type "rust" then "index.js" : str
  else source_file meta in
match read_resource pkg_name filename with
| NoPackage | NoFile => Loaded (None, None)
| ReadRaises msg => LibraryError (ReadFailure (ReadRaises msg))
| ReadBytes script_content =>
    if PyStr.eqb worker_type "rust" && Worker.truthy_opt (wasm_file meta) then
      match read_resource pkg_name
              (match wasm_file meta with Some f => f | None => [] end) with
      | ReadBytes wasm_content => Loaded (Some script_content, Some wasm_content)
      | NoFile => Loaded (Some script_content, None)
      | NoPackage => LibraryError (ReadFailure NoPackage)
      | ReadRaises msg => LibraryError (ReadFailure (ReadRaises msg))
      end
    else Loaded (Some script_content, None)
end.

(** [get_worker_source] *)
Definition get_worker_source (worker_type : str) : loaded (str * option str) :=
match get worker_type WORKER_META with
| None => LoadError (EValueError ("Unknown worker type: " ++ worker_type))
| Some meta =>
    match _get_resource_source worker_type meta with
    | LoadError e => LoadError e
    | LibraryError f => LibraryError f
    | Loaded (None, _) =>
        LoadError
          (EFileNotFoundError
             ("Worker source for '" ++ worker_type
              ++ "' not found in package resources." ++ newline
              ++ "Please assure the package was correctly built and installed."))
    | Loaded (Some script_bytes, wasm_bytes) =>
        if PyStr.eqb worker_type "rust"
           && match wasm_bytes with None => true | Some _ => false end
        then
          LoadError
            (EFileNotFoundError
               ("Rust worker WASM artifact not found in package resources."
                ++ newline
                ++ "Please assure the package was correctly built and installed."))
        else if utf8_valid script_bytes
        then Loaded (script_bytes, wasm_bytes)
        else LibraryError UnicodeDecodeError
    end
end.

End Source.

Section Deploy.

(** [constants.py]: the worker types, [WORKER_META], the two lookups made
    in [CONTENT_TYPES] and [COMPATIBILITY_DATE]. *)
Variable WorkerType : Type.

Variable WORKER_META : WorkerType -> WorkerMeta.
Variable CONTENT_TYPES_get : WorkerType -> option str.
Variable CONTENT_TYPES_wasm : option str.
Variable COMPATIBILITY_DATE : str.

(** [DeploymentConfig] (models/deployment.py) *)
Record DeploymentConfig : Type := mkConfig {
  name : str;
  script_content : str;
  worker_type : WorkerType;
  wasm_content : option str
}.

(** The [bindings] of [deploy_worker]. *)
Definition bindings : list Binding :=
  [ mkBinding "plain_text" "CORS_ORIGIN"
      (getitem "Access-Control-Allow-Origin" CORS_HEADERS);
    mkBinding "plain_text" "CORS_METHODS"
      (getitem "Access-Control-Allow-Methods" CORS_HEADERS);
    mkBinding "plain_text" "CORS_ALLOWED_HEADERS"
      (getitem "Access-Control-Allow-Headers" CORS_HEADERS) ].

(** The [metadata] and [files] arguments of [scripts.update]. *)
Definition deploy_metadata (config : DeploymentConfig) : Metadata :=
let meta := WORKER_META (worker_type config) in
mkMetadata (main_module meta) bindings COMPATIBILITY_DATE
  (compatibility_flags meta).

Definition deploy_files (config : DeploymentConfig) : dict FilePart :=
let meta := WORKER_META (worker_type config) in
let content_type :=
  match CONTENT_TYPES_get (worker_type config) with
  | Some c => c
  | None => "application/javascript" : str
  end in
let files : dict FilePart :=
  set (main_module meta) (main_module meta, script_content config, content_type)
    [] in
if Worker.truthy_opt (wasm_content config) && Worker.truthy_opt (wasm_file meta)
then
  match wasm_content config, wasm_file meta with
  | Some content, Some file =>
      set file
        (file, content,
         match CONTENT_TYPES_wasm with
         | Some c => c
         | None => "application/wasm" : str
         end)
        files
  | _, _ => files
  end
else files.

(** What the three library calls of one run of [deploy_worker] answer. *)
Record Answers : Type := mkAnswers {
  scripts_update : answer unit;
  subdomain_create : answer unit;
  subdomains_get : answer (option (option str))
}.

(** The body of [deploy_worker]: one attempt, from the cached
    [self._subdomain]. *)
Definition deploy_body (config : DeploymentConfig) (ans : Answers)
  (cached : option str) : (str + error) * option str * list ApiCall :=
let update :=
  ScriptsUpdate (name config) (deploy_metadata config) (deploy_files config) in
let create := ScriptSubdomainCreate (name config) in
match scripts_update ans with
| Failed e =>
    (inr (ERuntimeError ("Deployment failed: " ++ e)), cached, [update])
| Returned _ =>
    match subdomain_create ans with
    | Failed e =>
        (inr (ERuntimeError ("Deployment failed: " ++ e)), cached,
         [update; create])
    | Returned _ =>
        let '(r, cached', calls) :=
          ensure_subdomain cached (subdomains_get ans) in
        match r with
        | Val subdomain =>
            (inl ("https://" ++ name config ++ "." ++ subdomain
                  ++ ".workers.dev"),
             cached', [update; create] ++ calls)
        | Exn e =>
            (inr (ERuntimeError ("Deployment failed: " ++ message e)),
             cached', [update; create] ++ calls)
        end
    end
end.

(** [deploy_worker], under its [@retry(stop=stop_after_attempt(3))];
    [answers k] is what the library answers during the [k]-th attempt. *)
Definition deploy_worker (config : DeploymentConfig)
  (answers : nat -> Answers) (cached : option str)
  : Tenacity.retried str error * option str * list ApiCall :=
Tenacity.retry3 (option str) str error ApiCall
  (fun k cached => deploy_body config (answers k) cached) cached.

End Deploy.

(** The environment a deployed worker runs in: each [plain_text] binding
    is an attribute of [env] holding its text. *)
Definition env_of_bindings (bs : list Binding) : Js.Env :=
of_items
  (flat_map
     (fun b =>
        if PyStr.eqb (binding_type b) "plain_text"
        then [(binding_name b, binding_text b)] else [])
     bs).

End Service.

(* ================================================================== *)
(** * The health check (services/tester.py) *)
(* ================================================================== *)

Module Tester.

Import Exc.

(** A call of [client.get(url)]. *)
Inductive HttpCall : Type :=
| HttpGet (url : str).

(** The body of [check_health], given how [client.get(url)] ends; the
    status of the response is not looked at. *)
Definition check_health_body (get : answer nat) (url : str)
  : (bool + error) * unit * list HttpCall :=
match get with
| Returned _ => (inl true, tt, [HttpGet url])
| Failed _ => (inl false, tt, [HttpGet url])
end.

(** [check_health], under its [@retry(stop=stop_after_attempt(3))];
    [gets k] is how [client.get] would end during the [k]-th attempt. *)
Definition check_health (gets : nat -> answer nat) (url : str)
  : Tenacity.retried bool error * unit * list HttpCall :=
Tenacity.retry3 unit bool error HttpCall
  (fun k _ => check_health_body (gets k) url) tt.

End Tester.

(* ================================================================== *)
(** * The [delete] command (cli/commands/delete.py) *)
(* ================================================================== *)

Module DeleteCmd.

Import Exc.
Import Service.

(** What the command prints, by message; the texts themselves, which
    carry console markup, are not modelled. *)
Inductive Message : Type :=
| MsgNeedTarget
| MsgBothTargets
| MsgConfiguration
| MsgCancelled
| MsgDeleted (name : str)
| MsgNoneFound
| MsgFound (count : nat) (worker_prefix : str)
| MsgItem (id : str)
| MsgDeletedCount (count : nat)
| MsgFailed (name : str)
| MsgFailedCount (count : nat).

(** What a run of the command does, in order: calls on the Cloudflare
    client, the question of [Confirm.ask], lines on the consoles.  The
    progress spinner is left out. *)
Inductive Event : Type :=
| Called (c : ApiCall)
| Asked
| Printed (m : Message).

(** How the command ends: it returns, raises, or leaves through
    [typer.Exit(code)]. *)
Inductive Ended : Type :=
| Returns
| Raises (e : error)
| Exits (code : nat).

Section Command.

(** The worker prefix of the configuration, or [None] when
    [get_app_context] finds no valid configuration. *)
Variable app_context : option str.

(** The answer to [Confirm.ask], which a run asks at most once. *)
Variable confirm : bool.

(** The answer of the [n]-th call of [scripts.list], and of
    [scripts.delete] for a name. *)
Variable scripts_list : nat -> answer (list Script).
Variable scripts_delete : str -> answer unit.

(** [_delete_single_worker] *)
Definition _delete_single_worker (worker_prefix name : str) (force : bool)
  : Ended * list Event :=
let asked := if negb force then [Asked] else [] in
if negb force && negb confirm then
  (Exits 0, asked ++ [Printed MsgCancelled])
else
  let '(r, calls) := Service.delete_worker worker_prefix scripts_delete name in
  match r with
  | Val _ =>
      (Returns, asked ++ map Called calls ++ [Printed (MsgDeleted name)])
  | Exn (EValueError m) =>
      (Raises (EWorkerError m), asked ++ map Called calls)
  | Exn _ =>
      (Raises
         (EWorkerError
            ("Failed to delete worker " ++ name
             ++ ". Check your API token and network connection.")),
       asked ++ map Called calls)
  end.

(** The loop of [_run]: the names deleted, the names that failed, and the
    calls made. *)
Fixpoint delete_each (worker_prefix : str) (workers : list WorkerInfo)
  : list str * list str * list ApiCall :=
match workers with
| [] => ([], [], [])
| w :: workers' =>
    let name := w_id w in
    let '(r, calls) := Service.delete_worker worker_prefix scripts_delete name in
    let '(deleted, failed, calls') := delete_each worker_prefix workers' in
    match r with
    | Val _ => (name :: deleted, failed, calls ++ calls')
    | Exn _ => (deleted, name :: failed, calls ++ calls')
    end
end.

(** [_delete_all_workers]: the workers are listed once for the
    confirmation and once more by [_run]. *)
Definition _delete_all_workers (worker_prefix : str) (force : bool)
  : Ended * list Event :=
let '(snapshot, calls0) :=
  Service.list_workers worker_prefix (scripts_list 0) in
match snapshot with
| Exn _ =>
    (Raises
       (EWorkerError
          "Failed to list workers. Check your API token and network connection."),
     map Called calls0)
| Val [] => (Returns, map Called calls0 ++ [Printed MsgNoneFound])
| Val workers_snapshot =>
    let found :=
      Printed (MsgFound (List.length workers_snapshot) worker_prefix)
      :: map (fun w => Printed (MsgItem (w_id w))) workers_snapshot in
    let asked := if negb force then [Asked] else [] in
    if negb force && negb confirm then
      (Exits 0, map Called calls0 ++ found ++ asked ++ [Printed MsgCancelled])
    else
      let '(second, calls1) :=
        Service.list_workers worker_prefix (scripts_list 1) in
      match second with
      | Exn e => (Raises e, map Called calls0 ++ found ++ asked ++ map Called calls1)
      | Val workers =>
          let '(deleted_names, failed_names, calls2) :=
            delete_each worker_prefix workers in
          (Returns,
           map Called calls0 ++ found ++ asked
           ++ map Called (calls1 ++ calls2)
           ++ [Printed (MsgDeletedCount (List.length deleted_names))]
           ++ match failed_names with
              | [] => []
              | _ :: _ =>
                  map (fun n => Printed (MsgFailed n)) failed_names
                  ++ [Printed (MsgFailedCount (List.length failed_names))]
              end)
      end
end.

(** [delete_worker(name, all_workers, force)], the command, with
    [_delete_worker_async] inlined. *)
Definition delete_worker (name : option str) (all_workers force : bool)
  : Ended * list Event :=
if negb (Worker.truthy_opt name) && negb all_workers then
  (Exits 1, [Printed MsgNeedTarget])
else if Worker.truthy_opt name && all_workers then
  (Exits 1, [Printed MsgBothTargets])
else
  match app_context with
  | None => (Exits 1, [Printed MsgConfiguration])
  | Some worker_prefix =>
      if all_workers then _delete_all_workers worker_prefix force
      else
        match name with
        | None =>
            (Raises
               (EWorkerError "Worker name is required when not using --all"),
             [])
        | Some n => _delete_single_worker worker_prefix n force
        end
  end.

End Command.

End DeleteCmd.

(* ================================================================== *)
(** * Vocabulary of the further properties *)
(* ================================================================== *)

Module Vocabulary.

Import PyDict UrlLib.



(** A policy of [ps] allows the permission named [p]. *)
Definition grants (ps : list Validation.Policy) (p : str) : Prop :=
exists policy group,
  In policy ps /\ Validation.effect policy = "allow"
  /\ In group (Validation.permission_groups policy)
  /\ Validation.group_name group = Some p.

(** The ids the scripts of a listing have. *)
Definition script_ids (scripts : list Service.Script) : list str :=
flat_map
  (fun s => match Service.script_id s with Some i => [i] | None => [] end)
  scripts.

(** The names [scripts.delete] was called with, in order. *)
Definition deletions (events : list DeleteCmd.Event) : list str :=
flat_map
  (fun ev =>
     match ev with
     | DeleteCmd.Called (Service.ScriptsDelete n) => [n]
     | _ => []
     end)
  events.

(** How many of the calls are uploads ([scripts.update]). *)
Definition count_updates (calls : list Service.ApiCall) : nat :=
List.length
  (filter
     (fun c => match c with Service.ScriptsUpdate _ _ _ => true | _ => false end)
     calls).

(** One attempt of [deploy_worker] goes through: the upload and the
    enabling of the route return, and a subdomain is cached or read. *)
Definition attempt_succeeds (ans : Service.Answers) (cached : option str) : bool :=
match Service.scripts_update ans, Service.subdomain_create ans with
| Exc.Returned _, Exc.Returned _ =>
    Worker.truthy_opt cached
    || match Service.subdomains_get ans with
       | Exc.Returned (Some (Some s)) => PyStr.truthy s
       | _ => false
       end
| _, _ => false
end.

(** The script names whose workers.dev route was enabled, in order. *)
Definition enabled_routes (calls : list Service.ApiCall) : list str :=
flat_map
  (fun c => match c with Service.ScriptSubdomainCreate n => [n] | _ => [] end)
  calls.

(** ** Sample inputs for concrete runs *)

Definition sample_script (id : str) : Service.Script :=
Service.mkScript (Some id) None None None.

(** Two listings that differ: between them one worker went away and
    another came, next to a script of someone else. *)
Definition sample_listings (n : nat) : Exc.answer (list Service.Script) :=
match n with
| 0 => Exc.Returned [sample_script "proxyflare-1-aaaaaa"]
| _ => Exc.Returned [sample_script "proxyflare-2-bbbbbb"; sample_script "other"]
end.

(** An API that carries out every deletion. *)
Definition sample_delete : str -> Exc.answer unit := fun _ => Exc.Returned tt.

(** A deployment of a Python worker, under stand-ins for the constants of
    [constants.py]. *)
Definition sample_meta : unit -> Service.WorkerMeta :=
fun _ => Service.mkMeta "worker.py" "worker.py" None [].

Definition sample_config : Service.DeploymentConfig unit :=
Service.mkConfig unit "proxyflare-1-aaaaaa" "code" tt None.

Definition sample_deployed_env : Js.Env :=
Service.env_of_bindings
  (Service.md_bindings
     (Service.deploy_metadata unit sample_meta "2025-01-01" sample_config)).

End Vocabulary.

(* ================================================================== *)
(** * Facts about strings and dicts *)
(* ================================================================== *)

Module StrFacts.

Lemma eqb_refl (a : str) : PyStr.eqb a a = true.
Proof.
induction a as [|c a IH]; simpl; [reflexivity|].
now rewrite Ascii.eqb_refl, IH.
Qed.

Lemma eqb_eq (a b : str) : PyStr.eqb a b = true <-> a = b.
Proof.
split.
- revert b; induction a as [|x a IH]; intros [|y b]; simpl; try discriminate; auto.
  intros H; apply andb_true_iff in H as [H1 H2].
  apply Ascii.eqb_eq in H1; subst; f_equal; auto.
- intros ->; apply eqb_refl.
Qed.

Lemma eqb_neq (a b : str) : PyStr.eqb a b = false <-> a <> b.
Proof.
split.
- intros H E; apply eqb_eq in E; congruence.
- intros H; destruct (PyStr.eqb a b) eqn:E; auto.
  apply eqb_eq in E; contradiction.
Qed.

Lemma eqb_sym (a b : str) : PyStr.eqb a b = PyStr.eqb b a.
Proof.
destruct (PyStr.eqb a b) eqn:E.
- apply eqb_eq in E; subst; symmetry; apply eqb_refl.
- symmetry; apply eqb_neq; apply eqb_neq in E; congruence.
Qed.

Lemma mem_In (c : ascii) (s : str) : mem c s = true <-> In c s.
Proof.
unfold mem; rewrite existsb_exists; split.
- intros (x & Hx & E); apply Ascii.eqb_eq in E; subst; auto.
- intros H; exists c; split; auto; apply Ascii.eqb_refl.
Qed.

Lemma mem_false (c : ascii) (s : str) : mem c s = false <-> ~ In c s.
Proof.
rewrite <- mem_In; destruct (mem c s); split; congruence.
Qed.

Lemma mem_str_In (x : str) (xs : list str) : mem_str x xs = true <-> In x xs.
Proof.
unfold mem_str; rewrite existsb_exists; split.
- intros (y & Hy & E); apply eqb_eq in E; subst; auto.
- intros H; exists x; split; auto; apply eqb_refl.
Qed.

Lemma mem_str_false (x : str) (xs : list str) : mem_str x xs = false <-> ~ In x xs.
Proof.
rewrite <- mem_str_In; destruct (mem_str x xs); split; congruence.
Qed.

Lemma distinct_NoDup (l : list str) : Spec.distinct l = true <-> NoDup l.
Proof.
induction l as [|x l IH]; simpl.
- split; auto using NoDup_nil.
- rewrite andb_true_iff, negb_true_iff, mem_str_false, IH; split.
  + intros [H1 H2]; constructor; auto.
  + intros H; inversion H; auto.
Qed.

(** ** [partition] and [split] *)





Lemma split_notin (sep : ascii) (s : str) : ~ In sep s -> split sep s = [s].
Proof.
induction s as [|c s IH]; simpl; intros H; [reflexivity|].
destruct (Ascii.eqb c sep) eqn:E.
- apply Ascii.eqb_eq in E; subst; exfalso; apply H; auto.
- rewrite IH; auto.
Qed.

Lemma split_app (sep : ascii) (a b : str) :
  ~ In sep a -> split sep (a ++ sep :: b) = a :: split sep b.
Proof.
induction a as [|c a IH]; simpl; intros H.
- now rewrite Ascii.eqb_refl.
- destruct (Ascii.eqb c sep) eqn:E.
  + apply Ascii.eqb_eq in E; subst; exfalso; apply H; auto.
  + rewrite IH; auto.
Qed.

Lemma split_join (sep : ascii) (parts : list str) :
  parts <> [] -> Forall (fun p => ~ In sep p) parts ->
  split sep (join [sep] parts) = parts.
Proof.
induction parts as [|p ps IH]; [congruence|].
intros _ H; inversion H as [|? ? Hp Hps]; subst.
destruct ps as [|q ps].
- simpl; apply split_notin; auto.
- change (join [sep] (p :: q :: ps)) with (p ++ sep :: join [sep] (q :: ps)).
  rewrite split_app by auto.
  rewrite IH; auto; congruence.
Qed.

End StrFacts.

Module DictFacts.

Import PyDict StrFacts.

Section Dict.

Context {V : Type}.
Implicit Types (d o : dict V) (k : str) (v : V).

Lemma get_set k k' v d :
  get k' (set k v d) = if PyStr.eqb k' k then Some v else get k' d.
Proof.
induction d as [|[k1 v1] d IH]; simpl; [reflexivity|].
destruct (PyStr.eqb k k1) eqn:E; simpl.
- apply eqb_eq in E; subst k1.
  destruct (PyStr.eqb k' k); reflexivity.
- rewrite IH.
  destruct (PyStr.eqb k' k1) eqn:E1; [|reflexivity].
  apply eqb_eq in E1; subst k1.
  now rewrite eqb_sym, E.
Qed.


Lemma get_None k d : get k d = None <-> ~ In k (keys d).
Proof.
induction d as [|[k1 v1] d IH]; simpl; [tauto|].
destruct (PyStr.eqb k k1) eqn:E.
- apply eqb_eq in E; subst; split; [discriminate|intros H; exfalso; auto].
- apply eqb_neq in E; rewrite IH; split; [intros H [H1|H1]; auto | auto].
Qed.

Lemma get_Some_In k v d : get k d = Some v -> In (k, v) d.
Proof.
induction d as [|[k1 v1] d IH]; simpl; [discriminate|].
destruct (PyStr.eqb k k1) eqn:E.
- apply eqb_eq in E; subst; intros [= ->]; auto.
- auto.
Qed.

Lemma In_get k v d : NoDup (keys d) -> In (k, v) d -> get k d = Some v.
Proof.
induction d as [|[k1 v1] d IH]; simpl; [tauto|].
intros H [E|Hin]; inversion H as [|? ? Hn Hd]; subst.
- injection E as -> ->; now rewrite eqb_refl.
- destruct (PyStr.eqb k k1) eqn:E; auto.
  apply eqb_eq in E; subst; exfalso; apply Hn.
  change k1 with (fst (k1, v)); now apply in_map.
Qed.

Lemma set_absent k v d : get k d = None -> set k v d = d ++ [(k, v)].
Proof.
induction d as [|[k1 v1] d IH]; simpl; [reflexivity|].
destruct (PyStr.eqb k k1) eqn:E; [discriminate|].
intros H; now rewrite IH.
Qed.

Lemma keys_set k v d :
  keys (set k v d) = if contains k d then keys d else keys d ++ [k].
Proof.
unfold contains.
induction d as [|[k1 v1] d IH]; simpl; [reflexivity|].
destruct (PyStr.eqb k k1) eqn:E; simpl; [reflexivity|].
rewrite IH; now destruct (get k d).
Qed.

Lemma In_keys_set x k v d :
  In x (keys (set k v d)) -> x = k \/ In x (keys d).
Proof.
rewrite keys_set; destruct (contains k d); auto.
rewrite in_app_iff; simpl; intuition.
Qed.

Lemma NoDup_keys_set k v d : NoDup (keys d) -> NoDup (keys (set k v d)).
Proof.
intros H; rewrite keys_set; unfold contains.
destruct (get k d) eqn:G; auto.
apply get_None in G.
apply NoDup_app; auto.
- repeat constructor; auto.
- intros x Hx [<-|[]]; auto.
Qed.

Lemma update_cons k v d o : update d ((k, v) :: o) = update (set k v d) o.
Proof. reflexivity. Qed.

Lemma NoDup_keys_update d o : NoDup (keys d) -> NoDup (keys (update d o)).
Proof.
revert d; induction o as [|[k v] o IH]; intros d H; [exact H|].
rewrite update_cons; apply IH, NoDup_keys_set, H.
Qed.

Lemma get_update k d o :
  NoDup (keys o) ->
  get k (update d o) = match get k o with Some v => Some v | None => get k d end.
Proof.
revert d; induction o as [|[k1 v1] o IH]; intros d H; [reflexivity|].
inversion H as [|? ? Hn Hd]; subst.
rewrite update_cons, IH by assumption; simpl.
rewrite get_set.
destruct (PyStr.eqb k k1) eqn:E; [|reflexivity].
apply eqb_eq in E; subst k1.
apply get_None in Hn; now rewrite Hn.
Qed.

Lemma In_keys_update x d o :
  In x (keys (update d o)) -> In x (keys d) \/ In x (keys o).
Proof.
revert d; induction o as [|[k v] o IH]; intros d; [now left|].
rewrite update_cons; intros H.
apply IH in H as [H|H]; [|right; right; exact H].
apply In_keys_set in H as [->|H]; [right; left; reflexivity|left; exact H].
Qed.



Lemma NoDup_keys_of_items (items : list (str * V)) : NoDup (keys (of_items items)).
Proof. apply NoDup_keys_update; constructor. Qed.




End Dict.

End DictFacts.

(* ================================================================== *)
(** * The handler, case by case *)
(* ================================================================== *)

Module HandlerFacts.

Import PyDict UrlLib Js Worker Spec StrFacts DictFacts Aux.

Section Cases.

Context {NC : NetlocChecks}.
Variable fetch : str -> FetchInit -> FetchResult.
Variable random : Random.
Variable request : Request.
Variable env : Env.

Lemma on_fetch_ends (o : Outcome) :
  on_fetch fetch random request env = Ok o
  <-> ends_with fetch random request env o.
Proof.
unfold on_fetch; split.
- destruct (PyStr.eqb (method request) "OPTIONS") eqn:M.
  + apply eqb_eq in M; intros [= <-]; now constructor.
  + apply eqb_neq in M.
    destruct (resolve_target request) as [t|e] eqn:R; simpl; [|discriminate].
    destruct (truthy_opt t) eqn:T; simpl.
    * destruct t as [t|]; [|discriminate]; simpl in T.
      destruct (fetch t (fetch_init random request)) eqn:F; intros [= <-].
      -- now apply Proxied.
      -- now apply ProxyError.
    * intros [= <-]; now apply MissingTarget with t.
- intros H; destruct H as [M|t M R T|t r M R T F|t e M R T F].
  + apply eqb_eq in M; now rewrite M.
  + apply eqb_neq in M; rewrite M, R; simpl; now rewrite T.
  + apply eqb_neq in M; rewrite M, R; simpl; rewrite T; simpl; now rewrite F.
  + apply eqb_neq in M; rewrite M, R; simpl; rewrite T; simpl; now rewrite F.
Qed.

End Cases.

Lemma cors_headers_eq (env : Env) :
  cors_headers env =
  [ ("Access-Control-Allow-Origin" : str, getattr env "CORS_ORIGIN" "*");
    ("Access-Control-Allow-Methods" : str,
     getattr env "CORS_METHODS" "GET, POST, OPTIONS");
    ("Access-Control-Allow-Headers" : str,
     getattr env "CORS_ALLOWED_HEADERS" "*") ].
Proof. reflexivity. Qed.

Lemma default_cors_eq :
  DEFAULT_CORS =
  [ ("Access-Control-Allow-Origin" : str, "*" : str);
    ("Access-Control-Allow-Methods" : str,
     "GET, POST, PUT, DELETE, OPTIONS, PATCH, HEAD" : str);
    ("Access-Control-Allow-Headers" : str, "*" : str) ].
Proof. reflexivity. Qed.

Lemma error_response_details (message : str) (details : dict json) (status : nat) :
  create_error_response message (Some details) status None =
  mkResponse status None
    (("Content-Type" : str, "application/json" : str) :: DEFAULT_CORS)
    (BodyJson (update [("error" : str, JString message)] details)).
Proof.
unfold create_error_response, Response_json; f_equal.
destruct details; reflexivity.
Qed.

Lemma error_response_plain (message : str) (status : nat) :
  create_error_response message None status None =
  mkResponse status None
    (("Content-Type" : str, "application/json" : str) :: DEFAULT_CORS)
    (BodyJson [("error" : str, JString message)]).
Proof. reflexivity. Qed.

(** The keys of the filtered response headers never name a stripped header. *)
Lemma filter_response_headers_keys (hs : Headers) (k : str) :
  In k (keys (filter_response_headers hs)) ->
  mem_str (lower k) unrelayed_headers = false.
Proof.
unfold filter_response_headers, entries.
assert (G : forall acc : dict str,
  (forall x, In x (keys acc) -> mem_str (lower x) unrelayed_headers = false) ->
  In k (keys (fold_left
    (fun new_headers kv =>
       let '(key, value) := kv in
       let key_lower := lower key in
       if negb (mem_str key_lower unrelayed_headers)
       then set key value new_headers else new_headers) hs acc)) ->
  mem_str (lower k) unrelayed_headers = false).
{ induction hs as [|[key value] hs IH]; intros acc Hacc; cbn [fold_left];
    [now apply Hacc|].
  apply IH.
  destruct (mem_str (lower key) unrelayed_headers) eqn:E;
    cbn [negb]; auto.
  intros x Hx; apply In_keys_set in Hx as [->|Hx]; auto. }
apply G; intros x [].
Qed.

End HandlerFacts.

(* ================================================================== *)
(** * Properties of the relay handler's responses *)
(* ================================================================== *)

Module ResponseProps.

Import PyDict UrlLib Js Worker Spec StrFacts DictFacts HandlerFacts Aux.

Lemma NoDup_cors_keys (env : Env) : NoDup (keys (cors_headers env)).
Proof.
rewrite cors_headers_eq; cbn [keys map fst].
apply distinct_NoDup; reflexivity.
Qed.

Lemma get_proxied_header (k : str) (d : dict str) (env : Env) :
  get k (update d (cors_headers env)) =
  match get k (cors_headers env) with Some v => Some v | None => get k d end.
Proof. apply get_update, NoDup_cors_keys. Qed.

Lemma unrelayed_names (k : str) :
  mem_str (lower k) unrelayed_headers = false ->
  lower k <> "content-encoding" /\ lower k <> "content-length"
  /\ lower k <> "transfer-encoding".
Proof.
intros H; apply mem_str_false in H.
repeat split; intros E; apply H; rewrite E; simpl; auto.
Qed.

(** C5. Whatever response the handler returns (preflight, 400, proxied or
    502), no header of it is named Content-Encoding, Content-Length or
    Transfer-Encoding in any casing, and the three
    Access-Control-Allow-* headers are present. *)
Theorem C5_response_headers {NC : NetlocChecks}
  (fetch : str -> FetchInit -> FetchResult) (random : Random)
  (request : Request) (env : Env) (o : Outcome) :
  on_fetch fetch random request env = Ok o ->
  (forall k, In k (keys (resp_headers (response o))) ->
             lower k <> "content-encoding"
             /\ lower k <> "content-length"
             /\ lower k <> "transfer-encoding")
  /\ contains "Access-Control-Allow-Origin" (resp_headers (response o)) = true
  /\ contains "Access-Control-Allow-Methods" (resp_headers (response o)) = true
  /\ contains "Access-Control-Allow-Headers" (resp_headers (response o)) = true.
Proof.
intros H.
cut ((forall k, In k (keys (resp_headers (response o))) ->
                mem_str (lower k) unrelayed_headers = false)
     /\ contains "Access-Control-Allow-Origin" (resp_headers (response o)) = true
     /\ contains "Access-Control-Allow-Methods" (resp_headers (response o)) = true
     /\ contains "Access-Control-Allow-Headers" (resp_headers (response o)) = true).
{ intros (A & B); split; [|exact B].
  intros k Hk; now apply unrelayed_names, A. }
apply on_fetch_ends in H.
destruct H as [M|t M R T|t r M R T F|t e M R T F];
  cbn [response resp_headers preflight_outcome missing_target_outcome
       proxied_outcome proxy_error_outcome Response_new];
  try rewrite error_response_details;
  try rewrite error_response_plain;
  cbn [resp_headers].
- split; [|repeat split; reflexivity].
  intros k Hk; rewrite default_cors_eq in Hk; cbn in Hk.
  decompose [or] Hk; subst; try reflexivity; contradiction.
- split; [|repeat split; reflexivity].
  intros k Hk; rewrite default_cors_eq in Hk; cbn in Hk.
  decompose [or] Hk; subst; try reflexivity; contradiction.
- split.
  + intros k Hk; apply In_keys_update in Hk as [Hk|Hk].
    * now apply filter_response_headers_keys in Hk.
    * rewrite cors_headers_eq in Hk; cbn in Hk.
      decompose [or] Hk; subst; try reflexivity; contradiction.
  + unfold contains; rewrite !get_proxied_header, cors_headers_eq.
    repeat split; reflexivity.
- split; [|repeat split; reflexivity].
  intros k Hk; rewrite default_cors_eq in Hk; cbn in Hk.
  decompose [or] Hk; subst; try reflexivity; contradiction.
Qed.

(** A proxied response in a concrete run: the downstream's encoding and
    length headers are gone, [x-keep-this] and the CORS headers are there. *)
Lemma C5_response_headers_witness :
  exists o,
    on_fetch (NC := lax_checks) fetch_ok random0
      (get_request "http://worker.dev/?url=https://example.com" []) [] = Ok o
    /\ (forall k, In k (keys (resp_headers (response o))) ->
                  lower k <> "content-encoding"
                  /\ lower k <> "content-length"
                  /\ lower k <> "transfer-encoding")
    /\ contains "Access-Control-Allow-Origin" (resp_headers (response o)) = true
    /\ contains "Access-Control-Allow-Methods" (resp_headers (response o)) = true
    /\ contains "Access-Control-Allow-Headers" (resp_headers (response o)) = true.
Proof.
eexists; split; [vm_compute; reflexivity|].
apply (C5_response_headers (NC := lax_checks) fetch_ok random0
         (get_request "http://worker.dev/?url=https://example.com" []) []).
vm_compute; reflexivity.
Defined.

(** The two failures the handler reports.  When target resolution ends
    without a target the handler returns status 400 with the JSON body
    {"error": "Missing target URL", "usage": {...}} naming the three input
    mechanisms, and calls fetch not at all.  When the downstream fetch raises,
    it returns status 502 with the JSON body {"error": "Proxy Error: <cause>"}
    after that single fetch call.  No run calls fetch more than once. *)
Lemma reported_failures {NC : NetlocChecks}
  (fetch : str -> FetchInit -> FetchResult) (random : Random)
  (request : Request) (env : Env) :
  (forall t,
     method request <> "OPTIONS" ->
     resolve_target request = Ok t -> truthy_opt t = false ->
     exists o,
       on_fetch fetch random request env = Ok o
       /\ status (response o) = 400
       /\ resp_body (response o) =
          BodyJson
            [ ("error" : str, JString "Missing target URL");
              ("usage" : str,
               JObject
                 [ ("query_param" : str, JString "?url=https://example.com");
                   ("header" : str, JString "X-Target-URL: https://example.com");
                   ("path" : str, JString "/https://example.com") ]) ]
       /\ fetch_calls o = [])
  /\ (forall t e,
        method request <> "OPTIONS" ->
        resolve_target request = Ok (Some t) -> PyStr.truthy t = true ->
        fetch t (fetch_init random request) = Rejected e ->
        exists o,
          on_fetch fetch random request env = Ok o
          /\ status (response o) = 502
          /\ resp_body (response o) =
             BodyJson [ ("error" : str, JString ("Proxy Error: " ++ e)) ]
          /\ fetch_calls o = [(t, fetch_init random request)])
  /\ (forall o,
        on_fetch fetch random request env = Ok o ->
        List.length (fetch_calls o) <= 1).
Proof.
repeat split.
- intros t M R T.
  exists (missing_target_outcome); split.
  + apply on_fetch_ends; now apply MissingTarget with t.
  + repeat split; reflexivity.
- intros t e M R T F.
  exists (proxy_error_outcome random request t e); split.
  + apply on_fetch_ends; now apply ProxyError.
  + repeat split; reflexivity.
- intros o H; apply on_fetch_ends in H; destruct H; simpl; lia.
Qed.

(** C7.  A relay request whose [url] parameter opens an IPv6 bracket and
    never closes it: the handler returns no response at all, neither a JSON
    body nor a status.  [urlparse] rejects the target in step 1.1, before
    the [try] of step 5, and its [ValueError] leaves [on_fetch], whatever
    the downstream, the bindings and the checks of [urlsplit] are. *)
Theorem C7_malformed_target_unreported {NC : NetlocChecks}
  (fetch : str -> FetchInit -> FetchResult) (random : Random) (env : Env) :
  on_fetch fetch random
    (get_request "http://worker.dev/?url=http://[::1" []) env
  = Raise (ValueError "Invalid IPv6 URL").
Proof. reflexivity. Qed.


Lemma response_headers_from (hs : Headers) (k : str) :
  In k (keys (filter_response_headers hs)) -> In k (map fst hs).
Proof.
unfold filter_response_headers, entries.
assert (G : forall acc : dict str,
          In k (keys (fold_left
            (fun new_headers kv =>
               let '(key, value) := kv in
               let key_lower := lower key in
               if negb (mem_str key_lower unrelayed_headers)
               then set key value new_headers else new_headers) hs acc)) ->
          In k (keys acc) \/ In k (map fst hs)).
{ induction hs as [|[k1 v1] hs IH]; intros acc; cbn [fold_left]; [now left|].
  intros H; apply IH in H as [H|H]; [|right; now right].
  destruct (negb (mem_str (lower k1) unrelayed_headers)); [|now left].
  apply In_keys_set in H as [->|H]; [right; now left|now left]. }
intros H; apply G in H as [[]|H]; exact H.
Qed.





(** A downstream response that carries a CORS header of its own, in lower
    case as the runtime yields it: the relay hands both to [Response.new],
    the downstream's under its lower-case name and its own. *)
Lemma downstream_cors_header_kept :
  exists o,
    on_fetch (NC := lax_checks)
      (fun _ _ =>
         Resolved
           (mkFetched 200 "OK"
              [("access-control-allow-origin" : str,
                "https://downstream.example" : str)]
              None))
      random0
      (get_request "http://worker.dev/?url=https://example.com" [])
      [("CORS_ORIGIN" : str, "https://app.example" : str)]
    = Ok o
    /\ resp_headers (response o)
       = [ ("access-control-allow-origin" : str,
            "https://downstream.example" : str);
           ("Access-Control-Allow-Origin" : str, "https://app.example" : str);
           ("Access-Control-Allow-Methods" : str, "GET, POST, OPTIONS" : str);
           ("Access-Control-Allow-Headers" : str, "*" : str) ].
Proof. eexists; split; vm_compute; reflexivity. Qed.


(** On a proxied response without bindings, Access-Control-Allow-Methods is
    "GET, POST, OPTIONS", not the list used on preflight and error
    responses and in [proxyflare/cors.py]. *)
Lemma proxied_methods_default :
  exists o,
    on_fetch (NC := lax_checks) fetch_ok random0
      (get_request "http://worker.dev/?url=https://example.com" []) [] = Ok o
    /\ get "Access-Control-Allow-Methods" (resp_headers (response o))
       = Some ("GET, POST, OPTIONS" : str).
Proof. eexists; split; vm_compute; reflexivity. Qed.

End ResponseProps.

(* ================================================================== *)
(** * Properties of the downstream request headers *)
(* ================================================================== *)

Module HeaderProps.

Import PyDict UrlLib Js Worker Spec StrFacts DictFacts HandlerFacts Aux.

(** ** The random address *)

Lemma octet_str (n : nat) :
  1 <= n <= 255 ->
  ~ In "."%char (str_of_nat n) /\ int_of_str (str_of_nat n) = Some n.
Proof.
intros Hn.
assert (G : forallb
              (fun m => negb (mem "."%char (str_of_nat m))
                        && match int_of_str (str_of_nat m) with
                           | Some r => r =? m
                           | None => false
                           end)
              (seq 1 255) = true) by (vm_compute; reflexivity).
rewrite forallb_forall in G.
specialize (G n); rewrite in_seq in G.
assert (GG := G ltac:(lia)); apply andb_true_iff in GG as [A B].
apply negb_true_iff, mem_false in A; split; [exact A|].
destruct (int_of_str (str_of_nat n)); [|discriminate].
now apply Nat.eqb_eq in B; subst.
Qed.

Lemma randint_octet (raw : nat) : 1 <= randint 1 255 raw <= 255.
Proof.
unfold randint; change (255 - 1 + 1) with 255.
pose proof (Nat.mod_upper_bound raw 255); lia.
Qed.

Lemma generate_random_ip_dotted_quad (random : Random) :
  dotted_quad (generate_random_ip random) = true.
Proof.
unfold generate_random_ip, dotted_quad; cbn [seq map].
set (a := randint 1 255 (random 0)).
set (b := randint 1 255 (random 1)).
set (c := randint 1 255 (random 2)).
set (d := randint 1 255 (random 3)).
assert (Ha : 1 <= a <= 255) by apply randint_octet.
assert (Hb : 1 <= b <= 255) by apply randint_octet.
assert (Hc : 1 <= c <= 255) by apply randint_octet.
assert (Hd : 1 <= d <= 255) by apply randint_octet.
destruct (octet_str a Ha) as [Na Ia], (octet_str b Hb) as [Nb Ib],
  (octet_str c Hc) as [Nc Ic], (octet_str d Hd) as [Nd Id].
change (join (list_ascii_of_string ".")) with (join ["."%char]).
rewrite split_join by (try discriminate; repeat constructor; assumption).
cbn [map]; rewrite Ia, Ib, Ic, Id.
unfold is_octet.
repeat (apply andb_true_iff; split); apply Nat.leb_le; lia.
Qed.

(** ** The sanitization loop *)

Lemma prepare_headers_fold (hs : Headers) :
  prepare_headers hs = fold_left prepare_step hs [].
Proof. reflexivity. Qed.

Lemma fresh_key (acc rest : dict str) (k v : str) :
  NoDup (keys (acc ++ (k, v) :: rest)) ->
  set k v acc = acc ++ [(k, v)]
  /\ NoDup (keys ((acc ++ [(k, v)]) ++ rest)).
Proof.
intros H; split.
- apply set_absent, get_None; intros Hin.
  unfold keys in H; rewrite map_app in H; cbn [map fst] in H.
  apply NoDup_remove_2 in H; apply H, in_or_app; now left.
- now rewrite <- app_assoc.
Qed.

Lemma prepare_fold_fresh (hs : Headers) (acc : dict str) :
  NoDup (keys (acc ++ sanitized hs)) ->
  fold_left prepare_step hs acc = acc ++ sanitized hs.
Proof.
revert acc; induction hs as [|[key value] hs IH]; intros acc H.
- simpl; now rewrite app_nil_r.
- cbn [fold_left].
  change (sanitized ((key, value) :: hs))
    with (sanitize_entry (key, value) ++ sanitized hs) in *.
  unfold prepare_step at 2; unfold sanitize_entry in *; cbn [fst snd] in *.
  destruct (mem_str (lower key) platform_headers).
  + now apply IH.
  + destruct (PyStr.eqb (lower key) "x-my-x-forwarded-for");
      cbn [app] in H; destruct (fresh_key _ _ _ _ H) as [-> N];
      rewrite IH by exact N; now rewrite <- app_assoc.
Qed.

Lemma prepare_headers_distinct (hs : Headers) :
  distinct (keys (sanitized hs)) = true ->
  prepare_headers hs = sanitized hs.
Proof.
intros H; rewrite prepare_headers_fold.
now rewrite prepare_fold_fresh by (now apply distinct_NoDup).
Qed.

Lemma In_keys_sanitized (x : str) (hs : Headers) :
  In x (keys (sanitized hs)) ->
  In x (map fst hs)
  \/ (x = "X-Forwarded-For"
      /\ exists k, In k (map fst hs) /\ lower k = "x-my-x-forwarded-for").
Proof.
induction hs as [|[key value] hs IH]; [intros []|].
unfold sanitized, keys; cbn [flat_map]; rewrite map_app, in_app_iff.
intros [H|H].
- unfold sanitize_entry in H; cbn [fst snd] in H.
  destruct (mem_str (lower key) platform_headers); [destruct H|].
  destruct (PyStr.eqb (lower key) "x-my-x-forwarded-for") eqn:E.
  + destruct H as [<-|[]]; right; split; [reflexivity|].
    apply eqb_eq in E; exists key; split; [now left|exact E].
  + destruct H as [<-|[]]; left; now left.
- destruct (IH H) as [G|(-> & k & G1 & G2)].
  + left; now right.
  + right; split; [reflexivity|]; exists k; split; [now right|exact G2].
Qed.

Lemma wf_sanitized_distinct (hs : Headers) :
  headers_wf hs = true -> distinct (keys (sanitized hs)) = true.
Proof.
unfold headers_wf; rewrite andb_true_iff, forallb_forall, distinct_NoDup.
intros [L D]; apply distinct_NoDup.
induction hs as [|[key value] hs IH]; [constructor|].
cbn [map fst] in *; inversion D as [|? ? Dn Dd]; subst.
assert (Lk : lower key = key) by (apply eqb_eq, L; now left).
assert (IH' : NoDup (keys (sanitized hs))) by (apply IH; auto; intros; apply L; now right).
unfold sanitized, keys; cbn [flat_map]; rewrite map_app.
unfold sanitize_entry; cbn [fst snd].
destruct (mem_str (lower key) platform_headers); [exact IH'|].
destruct (PyStr.eqb (lower key) "x-my-x-forwarded-for") eqn:E.
- cbn [map fst app]; constructor; [|exact IH'].
  intros Hin; apply In_keys_sanitized in Hin as [G|(_ & k & G1 & G2)].
  + assert (Lx : lower "X-Forwarded-For" = ("X-Forwarded-For" : str))
      by (apply eqb_eq, L; now right).
    vm_compute in Lx; discriminate.
  + apply eqb_eq in E.
    assert (k = key).
    { rewrite <- Lk, E, <- G2; symmetry; apply eqb_eq, L; now right. }
    subst; contradiction.
- cbn [map fst app]; constructor; [|exact IH'].
  intros Hin; apply In_keys_sanitized in Hin as [G|(G & _)]; [contradiction|].
  subst key; vm_compute in Lk; discriminate.
Qed.

(** ** The synthesized header *)

Lemma no_forwarded_for_absent (d : dict str) :
  has_forwarded_for d = false ->
  get "X-Forwarded-For" d = None /\ count_named "x-forwarded-for" d = 0.
Proof.
unfold has_forwarded_for, count_named; intros H.
assert (G : forall k, In k (keys d) ->
              PyStr.eqb (lower k) "x-forwarded-for" = false).
{ intros k Hk; destruct (PyStr.eqb (lower k) "x-forwarded-for") eqn:E; auto.
  rewrite <- H; symmetry; apply existsb_exists; eauto. }
split.
- apply get_None; intros Hin; apply G in Hin; vm_compute in Hin; discriminate.
- clear H; induction (keys d) as [|k l IH]; [reflexivity|].
  cbn [filter]; rewrite G by now left.
  apply IH; intros; apply G; now right.
Qed.

Lemma add_forwarded_for_spec (random : Random) (d : dict str) :
  (has_forwarded_for d = false ->
   add_forwarded_for random d
   = d ++ [("X-Forwarded-For" : str, generate_random_ip random)]
   /\ count_named "x-forwarded-for" (add_forwarded_for random d) = 1)
  /\ (has_forwarded_for d = true -> add_forwarded_for random d = d).
Proof.
unfold add_forwarded_for; split; intros H; rewrite H; cbn [negb]; [|reflexivity].
destruct (no_forwarded_for_absent d H) as [G C].
rewrite set_absent by exact G; split; [reflexivity|].
unfold count_named, keys in *; rewrite map_app, filter_app, length_app, C.
reflexivity.
Qed.

(** When the request carries both [x-forwarded-for] and
    [x-my-x-forwarded-for], the rename loop leaves two keys equal to
    X-Forwarded-For up to case, and no third one is synthesized. *)
Lemma rename_keeps_both :
  let hs : Headers :=
    [ ("x-forwarded-for" : str, "203.0.113.1" : str);
      ("x-my-x-forwarded-for" : str, "1.2.3.4" : str) ] in
  prepare_headers hs
  = [ ("x-forwarded-for" : str, "203.0.113.1" : str);
      ("X-Forwarded-For" : str, "1.2.3.4" : str) ]
  /\ add_forwarded_for random0 (prepare_headers hs) = prepare_headers hs.
Proof. split; reflexivity. Qed.

(** Every fetch of a run is made with [fetch_init]. *)
Lemma fetch_call_init {NC : NetlocChecks}
  (fetch : str -> FetchInit -> FetchResult) (random : Random)
  (request : Request) (env : Env) (o : Outcome) (t : str) (i : FetchInit) :
  on_fetch fetch random request env = Ok o ->
  In (t, i) (fetch_calls o) ->
  i = fetch_init random request /\ resolve_target request = Ok (Some t).
Proof.
intros H Hin; apply on_fetch_ends in H.
destruct H as [M|t' M R T|t' r M R T F|t' e M R T F]; simpl in Hin;
  try contradiction; destruct Hin as [[= <- <-]|[]]; auto.
Qed.

Lemma has_forwarded_for_count (d : dict str) :
  has_forwarded_for d = negb (count_named "x-forwarded-for" d =? 0).
Proof.
unfold has_forwarded_for, count_named.
induction (keys d) as [|k l IH]; [reflexivity|]; cbn [existsb filter].
destruct (PyStr.eqb (lower k) "x-forwarded-for"); [reflexivity|exact IH].
Qed.

(** C4.  A relay request that carries both [x-forwarded-for] and
    [x-my-x-forwarded-for]: the downstream fetch is made with two headers
    equal to X-Forwarded-For up to case, the request's own and the one the
    rename step wrote beside it. *)
Theorem C4_forwarded_for_duplicated {NC : NetlocChecks}
  (fetch : str -> FetchInit -> FetchResult) (random : Random) (env : Env) :
  exists o i,
    on_fetch fetch random
      (get_request "http://worker.dev/?url=https://example.com"
         [ ("x-forwarded-for" : str, "203.0.113.1" : str);
           ("x-my-x-forwarded-for" : str, "1.2.3.4" : str) ])
      env
    = Ok o
    /\ fetch_calls o = [("https://example.com" : str, i)]
    /\ init_headers i
       = [ ("x-forwarded-for" : str, "203.0.113.1" : str);
           ("X-Forwarded-For" : str, "1.2.3.4" : str) ]
    /\ count_named "x-forwarded-for" (init_headers i) = 2.
Proof.
set (request := get_request "http://worker.dev/?url=https://example.com"
                  [ ("x-forwarded-for" : str, "203.0.113.1" : str);
                    ("x-my-x-forwarded-for" : str, "1.2.3.4" : str) ]).
assert (R : resolve_target request = Ok (Some ("https://example.com" : str)))
  by (vm_compute; reflexivity).
assert (M : method request <> "OPTIONS") by discriminate.
destruct (fetch "https://example.com" (fetch_init random request)) as [r|e] eqn:F.
- exists (proxied_outcome random request env "https://example.com" r),
         (fetch_init random request).
  split; [apply on_fetch_ends; now apply Proxied|].
  repeat split.
- exists (proxy_error_outcome random request "https://example.com" e),
         (fetch_init random request).
  split; [apply on_fetch_ends; now apply ProxyError|].
  repeat split.
Qed.

(** C6, as amended.  For a request whose headers are as the runtime yields
    them, the header map of the downstream fetch is the header policy
    applied to them (platform headers dropped, X-My-X-Forwarded-For
    re-emitted as X-Forwarded-For, every other header kept with its name and
    value, in order), followed, when no name of that map equals
    X-Forwarded-For up to case, by one X-Forwarded-For entry whose value is
    four dot-separated decimal integers each in [1,255]. *)
Theorem C6_downstream_headers {NC : NetlocChecks}
  (fetch : str -> FetchInit -> FetchResult) (random : Random)
  (request : Request) (env : Env) (o : Outcome) (t : str) (i : FetchInit) :
  headers_wf (headers request) = true ->
  on_fetch fetch random request env = Ok o ->
  In (t, i) (fetch_calls o) ->
  init_headers i
  = (if count_named "x-forwarded-for" (sanitized (headers request)) =? 0
     then sanitized (headers request)
          ++ [("X-Forwarded-For" : str, generate_random_ip random)]
     else sanitized (headers request))
  /\ dotted_quad (generate_random_ip random) = true.
Proof.
intros W H Hin.
assert (P : prepare_headers (headers request) = sanitized (headers request))
  by now apply prepare_headers_distinct, wf_sanitized_distinct.
split; [|apply generate_random_ip_dotted_quad].
destruct (fetch_call_init _ _ _ _ _ _ _ H Hin) as [-> _].
cbn [fetch_init init_headers]; rewrite P.
destruct (add_forwarded_for_spec random (sanitized (headers request))) as [A B].
rewrite has_forwarded_for_count in A, B.
destruct (count_named "x-forwarded-for" (sanitized (headers request)) =? 0).
- now apply A.
- now apply B.
Qed.

(** Two concrete runs: a platform header, a renamed header and an ordinary
    one; and a request without any forwarded-for header, which gets the
    synthesized one. *)
Lemma C6_downstream_headers_witness :
  (exists o i,
     on_fetch (NC := lax_checks) fetch_ok random0
       (get_request "http://worker.dev/?url=https://example.com"
          [ ("cf-ray" : str, "12345" : str);
            ("host" : str, "worker.dev" : str);
            ("user-agent" : str, "TestAgent" : str);
            ("x-my-x-forwarded-for" : str, "1.2.3.4" : str) ]) []
     = Ok o
     /\ fetch_calls o = [("https://example.com" : str, i)]
     /\ init_headers i
        = [ ("user-agent" : str, "TestAgent" : str);
            ("X-Forwarded-For" : str, "1.2.3.4" : str) ])
  /\ (exists o i,
        on_fetch (NC := lax_checks) fetch_ok random0
          (get_request "http://worker.dev/?url=https://example.com"
             [("accept" : str, "*/*" : str)]) []
        = Ok o
        /\ fetch_calls o = [("https://example.com" : str, i)]
        /\ init_headers i
           = [ ("accept" : str, "*/*" : str);
               ("X-Forwarded-For" : str, "8.49.90.131" : str) ]).
Proof.
split.
- eexists; eexists; split; [vm_compute; reflexivity|].
  split; [reflexivity|].
  exact (proj1 (C6_downstream_headers (NC := lax_checks) fetch_ok random0
                  (get_request "http://worker.dev/?url=https://example.com"
                     [ ("cf-ray" : str, "12345" : str);
                       ("host" : str, "worker.dev" : str);
                       ("user-agent" : str, "TestAgent" : str);
                       ("x-my-x-forwarded-for" : str, "1.2.3.4" : str) ]) []
                  _ _ _ ltac:(reflexivity) ltac:(vm_compute; reflexivity)
                  ltac:(left; reflexivity))).
- eexists; eexists; split; [vm_compute; reflexivity|].
  split; [reflexivity|].
  exact (proj1 (C6_downstream_headers (NC := lax_checks) fetch_ok random0
                  (get_request "http://worker.dev/?url=https://example.com"
                     [("accept" : str, "*/*" : str)]) []
                  _ _ _ ltac:(reflexivity) ltac:(vm_compute; reflexivity)
                  ltac:(left; reflexivity))).
Defined.

(** C6 as stated fails on a request that carries only [accept]: the
    downstream fetch is sent [accept] and a synthesized X-Forwarded-For,
    which the sanitized request headers do not contain. *)
Lemma C6_synthesized_header_extra :
  let request :=
    get_request "http://worker.dev/?url=https://example.com"
      [("accept" : str, "*/*" : str)] in
  exists o i,
    on_fetch (NC := lax_checks) fetch_ok random0 request [] = Ok o
    /\ fetch_calls o = [("https://example.com" : str, i)]
    /\ init_headers i
       = [ ("accept" : str, "*/*" : str);
           ("X-Forwarded-For" : str, "8.49.90.131" : str) ]
    /\ sanitized (headers request) = [("accept" : str, "*/*" : str)]
    /\ ~ C6_as_stated.
Proof.
intros request; eexists; eexists; split; [vm_compute; reflexivity|].
repeat split.
intros H.
specialize (H lax_checks fetch_ok random0 request [] _ _ _
              ltac:(reflexivity) ltac:(vm_compute; reflexivity)
              ltac:(left; reflexivity)).
vm_compute in H; discriminate.
Qed.

End HeaderProps.

(* ================================================================== *)
(** * Facts about UTF-8 and [unquote] *)
(* ================================================================== *)

Module Utf8Facts.

Import PyDict UrlLib Spec StrFacts.





















(** ** The decoder *)



Lemma valid_replacement : utf8_valid REPLACEMENT = true.
Proof. reflexivity. Qed.





(** ** [unquote] *)











End Utf8Facts.

(* ================================================================== *)
(** * Facts about percent-encoding *)
(* ================================================================== *)

Module QuoteFacts.

Import PyDict UrlLib Spec StrFacts Utf8Facts Aux.
















End QuoteFacts.

(* ================================================================== *)
(** * Facts about URL splitting *)
(* ================================================================== *)

Module UrlFacts.

Import PyDict UrlLib Spec StrFacts QuoteFacts Aux.




















End UrlFacts.

(* ================================================================== *)
(** * Facts about query strings *)
(* ================================================================== *)

Module QueryFacts.

Import PyDict UrlLib Spec StrFacts DictFacts Utf8Facts QuoteFacts UrlFacts Aux.






(** ** Names and values collected by [parse_qs] *)

Lemma parse_field_value (piece n v : str) :
  In (n, v) (parse_field piece) ->
  exists n0 v0,
    partition "="%char piece = (n0, true, v0) /\ PyStr.truthy v0 = true
    /\ n = unquote_plus n0 /\ v = unquote_plus v0.
Proof.
unfold parse_field.
destruct (PyStr.truthy piece); cbn [negb]; [|intros []].
destruct (partition "="%char piece) as [[n0 f] v0].
destruct f; cbn [negb]; [|intros []].
destruct (PyStr.truthy v0) eqn:T; [|intros []].
intros [[= <- <-]|[]]; exists n0, v0; auto.
Qed.


Lemma collect_keys (k : str) (pairs : list (str * str)) (acc : dict (list str)) :
  In k (keys (fold_left collect pairs acc)) ->
  In k (keys acc) \/ In k (map fst pairs).
Proof.
revert acc; induction pairs as [|[n v] pairs IH]; intros acc; cbn [fold_left];
  [now left|].
intros H; apply IH in H as [H|H]; [|right; now right].
unfold collect in H.
destruct (get n acc); apply In_keys_set in H as [->|H]; auto;
  right; now left.
Qed.








(** When every [url] field of the query string is blank, the parsed query
    has no [url] entry. *)
Lemma blank_url_absent (qs : str) :
  url_fields_blank qs = true -> get "url" (parse_qs qs) = None.
Proof.
intros B; apply get_None; intros H.
apply collect_keys in H as [[]|H].
apply in_map_iff in H as ([n v] & E & H); cbn [fst] in E; subst n.
unfold parse_qsl in H; apply in_flat_map in H as (piece & Hp & H).
destruct (PyStr.truthy qs); [|destruct Hp].
apply parse_field_value in H as (n0 & v0 & P & T & E & _).
unfold url_fields_blank in B; rewrite forallb_forall in B.
specialize (B _ Hp); rewrite P, T, <- E in B.
discriminate.
Qed.

(** ** Well-formed text through [urlparse] and [parse_qs] *)











End QueryFacts.

(* ================================================================== *)
(** * Properties of the client-side rewrite *)
(* ================================================================== *)

Module RewriteProps.

Import PyDict UrlLib Spec StrFacts DictFacts Utf8Facts QuoteFacts UrlFacts.
Import QueryFacts Aux.
Import Httpx Transport.












End RewriteProps.

(* ================================================================== *)
(** * [parse_qs] after [urlencode] *)
(* ================================================================== *)

Module RoundTripFacts.

Import PyDict UrlLib Spec StrFacts DictFacts QuoteFacts QueryFacts Aux.
















End RoundTripFacts.

(* ================================================================== *)
(** * Properties of target resolution *)
(* ================================================================== *)

Module ResolveProps.

Import PyDict UrlLib Js Worker Spec StrFacts DictFacts HandlerFacts Aux.
Import Utf8Facts QuoteFacts QueryFacts RoundTripFacts.

Lemma from_path_truthy (p : ParseResult) (t : str) :
  from_path p = Some t -> PyStr.truthy t = true /\ PyStr.eqb (path p) "/" = false.
Proof.
unfold from_path.
remember (lstrip "/" (path p)) as l eqn:L.
destruct (startswith "http" l) eqn:S; [|discriminate].
intros E; injection E as E; subst t; split.
- destruct l; [cbn in S; discriminate|reflexivity].
- apply eqb_neq; intros P; rewrite P in L; cbn in L; subst l; discriminate.
Qed.

(** [resolve_target], once the request URL is parsed and the [url]
    parameter has been looked at: the three sources in their order. *)
Lemma resolve_cases {NC : NetlocChecks} (request : Request)
  (parsed_url : ParseResult) (q : option str) :
  urlparse (url request) = Ok parsed_url ->
  target_from_query (parse_qs (query parsed_url)) = Ok q ->
  let h := headers_get "X-Target-URL" (headers request) in
  (truthy_opt q = true -> resolve_target request = Ok q)
  /\ (truthy_opt q = false -> truthy_opt h = true ->
      resolve_target request = Ok h)
  /\ (truthy_opt q = false -> truthy_opt h = false ->
      forall t, from_path parsed_url = Some t ->
      resolve_target request = Ok (Some t))
  /\ (truthy_opt q = false -> truthy_opt h = false ->
      from_path parsed_url = None ->
      exists t, resolve_target request = Ok t /\ truthy_opt t = false).
Proof.
intros U Q h; unfold resolve_target; rewrite U; cbn [bind]; rewrite Q; cbn [bind].
fold h; repeat split.
- intros T; rewrite T; cbn [negb]; rewrite T; reflexivity.
- intros T1 T2; rewrite T1; cbn [negb]; rewrite T2; reflexivity.
- intros T1 T2 t F; rewrite T1; cbn [negb]; rewrite T2; cbn [negb andb].
  destruct (from_path_truthy _ _ F) as [_ ->]; cbn [negb].
  unfold from_path in F.
  destruct (startswith "http" (lstrip "/" (path parsed_url))); [exact (f_equal Ok F)|discriminate].
- intros T1 T2 F; rewrite T1; cbn [negb]; rewrite T2; cbn [negb andb].
  exists h; unfold from_path in F.
  destruct (startswith "http" (lstrip "/" (path parsed_url))); [discriminate|].
  now destruct (negb (PyStr.eqb (path parsed_url) "/")).
Qed.



(** C10. When the request's query string has a [url] field and every
    [url] field in it is blank, the [url] parameter yields no target, and
    resolution goes on to the X-Target-URL header and then to the path. *)
Theorem C10_blank_url_falls_through {NC : NetlocChecks} (request : Request)
  (parsed_url : ParseResult) :
  urlparse (url request) = Ok parsed_url ->
  has_blank_url_field (query parsed_url) = true ->
  url_fields_blank (query parsed_url) = true ->
  let h := headers_get "X-Target-URL" (headers request) in
  target_from_query (parse_qs (query parsed_url)) = Ok None
  /\ (truthy_opt h = true -> resolve_target request = Ok h)
  /\ (truthy_opt h = false ->
      forall t, from_path parsed_url = Some t ->
      resolve_target request = Ok (Some t))
  /\ (truthy_opt h = false -> from_path parsed_url = None ->
      exists t, resolve_target request = Ok t /\ truthy_opt t = false).
Proof.
intros U _ B h.
assert (Q : target_from_query (parse_qs (query parsed_url)) = Ok None).
{ unfold target_from_query; now rewrite (blank_url_absent _ B). }
destruct (resolve_cases request parsed_url None U Q) as (_ & A & C & D).
repeat split; auto.
Qed.

(** [?url=] with a header, with a path, and with neither. *)
Lemma C10_blank_url_falls_through_witness :
  resolve_target (NC := lax_checks)
    (get_request "http://worker.dev/?url="
       [("x-target-url" : str, "https://b.example/" : str)])
  = Ok (Some ("https://b.example/" : str))
  /\ resolve_target (NC := lax_checks)
       (get_request "http://worker.dev/https://c.example/?url=" [])
     = Ok (Some ("https://c.example/" : str))
  /\ exists t,
       resolve_target (NC := lax_checks)
         (get_request "http://worker.dev/?url=" []) = Ok t
       /\ truthy_opt t = false.
Proof.
assert (U1 : urlparse (NC := lax_checks) "http://worker.dev/?url="
             = Ok (mkParse "http" "worker.dev" "/" "" "url=" ""))
  by (vm_compute; reflexivity).
assert (U2 : urlparse (NC := lax_checks)
               "http://worker.dev/https://c.example/?url="
             = Ok (mkParse "http" "worker.dev" "/https://c.example/" ""
                     "url=" ""))
  by (vm_compute; reflexivity).
split; [|split].
- exact (proj1 (proj2 (C10_blank_url_falls_through (NC := lax_checks)
                  (get_request "http://worker.dev/?url="
                     [("x-target-url" : str, "https://b.example/" : str)])
                  _ U1 eq_refl eq_refl)) eq_refl).
- exact (proj1 (proj2 (proj2 (C10_blank_url_falls_through (NC := lax_checks)
                  (get_request "http://worker.dev/https://c.example/?url=" [])
                  _ U2 eq_refl eq_refl))) eq_refl _ eq_refl).
- exact (proj2 (proj2 (proj2 (C10_blank_url_falls_through (NC := lax_checks)
                  (get_request "http://worker.dev/?url=" [])
                  _ U1 eq_refl eq_refl))) eq_refl eq_refl).
Defined.








(** The same happens to a blank parameter of the target itself. *)
Lemma target_blank_parameter_dropped :
  resolve_target (NC := lax_checks)
    (get_request
       "http://worker.dev/?url=https%3A%2F%2Fexample.com%2Fsearch%3Fq%3D%26page%3D2"
       [])
  = Ok (Some ("https://example.com/search?page=2" : str)).
Proof. vm_compute; reflexivity. Qed.

(** On a name carried both by the relay request and by the target, the
    relay request's value is the one kept. *)
Lemma relay_value_wins_on_collision :
  resolve_target (NC := lax_checks)
    (get_request "http://worker.dev/?url=https%3A%2F%2Fexample.com%2F%3Fk%3Dtarget&k=relay" [])
  = Ok (Some ("https://example.com/?k=relay" : str)).
Proof. vm_compute; reflexivity. Qed.

End ResolveProps.

(* ================================================================== *)
(** * Further properties of the relay handler *)
(* ================================================================== *)

Module HandlerExtras.

Import PyDict UrlLib Js Worker Spec StrFacts DictFacts HandlerFacts Aux.
Import HeaderProps.

Lemma urlparse_empty {NC : NetlocChecks} :
  urlparse [] = Ok (mkParse [] [] [] [] [] []).
Proof. reflexivity. Qed.

(** What makes target resolution raise: [urlparse] rejecting the request
    URL, or rejecting the value of its first [url] parameter. *)
Lemma resolve_target_raises {NC : NetlocChecks} (request : Request) (e : exn) :
  resolve_target request = Raise e
  <-> urlparse (url request) = Raise e
      \/ exists parsed_url u0 rest,
           urlparse (url request) = Ok parsed_url
           /\ get "url" (parse_qs (query parsed_url)) = Some (u0 :: rest)
           /\ urlparse u0 = Raise e.
Proof.
unfold resolve_target.
destruct (urlparse (url request)) as [p|e0] eqn:U; cbn [bind].
- unfold target_from_query.
  destruct (get "url" (parse_qs (query p))) as [[|u0 rest]|] eqn:G.
  + cbn [bind]; cbv beta zeta; split; [intros [=]|].
    intros [H|(p' & u & r & [= <-] & H & _)]; congruence.
  + destruct (PyStr.truthy u0) eqn:T.
    * destruct (urlparse u0) as [tp|e1] eqn:U0; cbn [bind]; cbv beta zeta.
      -- split; [intros [=]|].
         intros [H|(p' & u & r & [= <-] & H & H')]; congruence.
      -- split.
         ++ intros [= <-]; right; exists p, u0, rest; auto.
         ++ intros [H|(p' & u & r & [= <-] & H & H')]; congruence.
    * cbn [bind]; cbv beta zeta; split; [intros [=]|].
      intros [H|(p' & u & r & [= <-] & H & H')]; [discriminate|].
      destruct u0; [|discriminate].
      assert (u = []) by congruence; subst u.
      rewrite urlparse_empty in H'; discriminate.
  + cbn [bind]; cbv beta zeta; split; [intros [=]|].
    intros [H|(p' & u & r & [= <-] & H & _)]; congruence.
- split.
  + intros [= <-]; now left.
  + intros [H|(p' & u & r & H & _)]; [congruence|discriminate].
Qed.

(** X1. The handler lets an exception escape exactly when the request is
    not a preflight and [urlparse] rejects the request URL or the value of
    its first [url] parameter; the exception is the one [urlparse] raised.
    Nothing else (a missing target, a failing fetch, any header or body)
    makes it raise. *)
Theorem on_fetch_raises_iff {NC : NetlocChecks}
  (fetch : str -> FetchInit -> FetchResult) (random : Random)
  (request : Request) (env : Env) (e : exn) :
  on_fetch fetch random request env = Raise e
  <-> method request <> "OPTIONS"
      /\ (urlparse (url request) = Raise e
          \/ exists parsed_url u0 rest,
               urlparse (url request) = Ok parsed_url
               /\ get "url" (parse_qs (query parsed_url)) = Some (u0 :: rest)
               /\ urlparse u0 = Raise e).
Proof.
rewrite <- resolve_target_raises; unfold on_fetch.
destruct (PyStr.eqb (method request) "OPTIONS") eqn:M; cbv iota.
- apply eqb_eq in M; split; [intros [=]|intros [H _]; contradiction].
- apply eqb_neq in M.
  destruct (resolve_target request) as [t|e0]; cbn [bind].
  + destruct (negb (truthy_opt t)).
    * split; [intros [=]|intros [_ H]; discriminate].
    * destruct (fetch _ _); split; try (intros [=]);
        intros [_ H]; discriminate.
  + split; [intros [= <-]; auto|intros [_ H]; congruence].
Qed.

(** A relay request whose [url] parameter opens an IPv6 bracket and never
    closes it. *)
Lemma on_fetch_raises_iff_witness :
  on_fetch (NC := lax_checks) fetch_ok random0
    (get_request "http://worker.dev/?url=http://[::1" []) []
  = Raise (ValueError "Invalid IPv6 URL").
Proof.
apply (proj2 (on_fetch_raises_iff (NC := lax_checks) fetch_ok random0
                (get_request "http://worker.dev/?url=http://[::1" []) []
                (ValueError "Invalid IPv6 URL"))).
split; [intros [=]|].
right.
exists (mkParse "http" "worker.dev" "/" "" "url=http://[::1" ""),
       ("http://[::1" : str), [].
repeat split; vm_compute; reflexivity.
Defined.

(** X2. The downstream fetch is made with the request's method as it is.
    It carries no body when the method is [GET] or [HEAD], and the
    request's body for every other method. *)
Theorem downstream_method_and_body {NC : NetlocChecks}
  (fetch : str -> FetchInit -> FetchResult) (random : Random)
  (request : Request) (env : Env) (o : Outcome) (t : str) (i : FetchInit) :
  on_fetch fetch random request env = Ok o ->
  In (t, i) (fetch_calls o) ->
  init_method i = method request
  /\ (method request = "GET" \/ method request = "HEAD" -> init_body i = None)
  /\ (method request <> "GET" -> method request <> "HEAD" ->
      init_body i = body request).
Proof.
intros H Hin; destruct (fetch_call_init _ _ _ _ _ _ _ H Hin) as [-> _].
unfold fetch_init; cbn [init_method init_body mem_str existsb].
split; [reflexivity|]; split.
- intros [E|E]; rewrite E; reflexivity.
- intros G1 G2; apply eqb_neq in G1, G2; now rewrite G1, G2.
Qed.

(** A [POST] with a body, relayed to [https://example.com/api]. *)
Lemma downstream_method_and_body_witness :
  init_method
    (fetch_init random0
       (mkRequest "POST" "http://worker.dev/?url=https://example.com/api" []
          (Some ("test_data" : str))))
  = ("POST" : str)
  /\ init_body
       (fetch_init random0
          (mkRequest "POST" "http://worker.dev/?url=https://example.com/api" []
             (Some ("test_data" : str))))
     = Some ("test_data" : str).
Proof.
pose (req := mkRequest "POST" "http://worker.dev/?url=https://example.com/api"
               [] (Some ("test_data" : str))).
assert (H : on_fetch (NC := lax_checks) fetch_ok random0 req []
            = Ok (proxied_outcome random0 req []
                    ("https://example.com/api" : str) sample_fetched))
  by (vm_compute; reflexivity).
destruct (downstream_method_and_body (NC := lax_checks) fetch_ok random0 req []
            _ _ _ H (or_introl eq_refl)) as (A & _ & C).
split; [exact A|].
apply C; discriminate.
Defined.

(** X3. Where a response comes from can be read off its body.  A streamed
    body is the downstream's, together with the downstream's status and
    status text, whatever that status is, after exactly one fetch.  A JSON
    body is the relay's own error: 400 without any fetch, or 502 after
    exactly one fetch.  An empty body is the 204 of a preflight. *)
Theorem response_origin {NC : NetlocChecks}
  (fetch : str -> FetchInit -> FetchResult) (random : Random)
  (request : Request) (env : Env) (o : Outcome) :
  on_fetch fetch random request env = Ok o ->
  match resp_body (response o) with
  | BodyStream b =>
      exists t r,
        fetch t (fetch_init random request) = Resolved r
        /\ fetch_calls o = [(t, fetch_init random request)]
        /\ status (response o) = f_status r
        /\ statusText (response o) = Some (f_statusText r)
        /\ b = f_body r
  | BodyJson _ =>
      (status (response o) = 400 /\ fetch_calls o = [])
      \/ (status (response o) = 502
          /\ exists t, fetch_calls o = [(t, fetch_init random request)])
  | BodyNull =>
      method request = "OPTIONS" /\ status (response o) = 204
      /\ fetch_calls o = []
  end.
Proof.
intros H; apply on_fetch_ends in H.
destruct H as [M|t M R T|t r M R T F|t e M R T F].
- cbn; auto.
- cbn; left; auto.
- cbn; exists t, r; auto.
- cbn; right; split; [reflexivity|]; exists t; auto.
Qed.

(** A downstream that answers 503 is relayed as 503, not as 502. *)
Lemma response_origin_witness :
  exists t r,
    (fun _ _ => Resolved (mkFetched 503 "Service Unavailable" [] None))
      t (fetch_init random0 (get_request "http://worker.dev/?url=https://example.com" []))
    = Resolved r
    /\ [(("https://example.com" : str),
         fetch_init random0
           (get_request "http://worker.dev/?url=https://example.com" []))]
       = [(t, fetch_init random0
                (get_request "http://worker.dev/?url=https://example.com" []))]
    /\ 503 = f_status r
    /\ Some ("Service Unavailable" : str) = Some (f_statusText r)
    /\ None = f_body r.
Proof.
pose (req := get_request "http://worker.dev/?url=https://example.com" []).
pose (down := mkFetched 503 "Service Unavailable" [] None).
assert (H : on_fetch (NC := lax_checks) (fun _ _ => Resolved down) random0 req []
            = Ok (proxied_outcome random0 req []
                    ("https://example.com" : str) down))
  by (vm_compute; reflexivity).
exact (response_origin (NC := lax_checks) (fun _ _ => Resolved down) random0
         req [] _ H).
Defined.

(** ** Which header names reach the downstream *)

Lemma In_keys_set_iff {V : Type} (x k : str) (v : V) (d : dict V) :
  In x (keys (set k v d)) <-> x = k \/ In x (keys d).
Proof.
split; [apply In_keys_set|].
rewrite keys_set; unfold contains.
destruct (get k d) eqn:G.
- intros [->|H]; auto.
  apply get_Some_In in G; apply (in_map fst) in G; exact G.
- rewrite in_app_iff; simpl; intros [->|H]; auto.
Qed.

Lemma sanitize_entry_keys (kv : str * str) (k : str) :
  In k (keys (sanitize_entry kv))
  <-> mem_str (lower (fst kv)) platform_headers = false
      /\ (if PyStr.eqb (lower (fst kv)) "x-my-x-forwarded-for"
          then k = "X-Forwarded-For" else k = fst kv).
Proof.
unfold sanitize_entry.
destruct (mem_str (lower (fst kv)) platform_headers).
- simpl; split; [intros []|intros [[=] _]].
- destruct (PyStr.eqb (lower (fst kv)) "x-my-x-forwarded-for"); simpl;
    split; intros H; try (destruct H as [<-|[]]; auto);
    destruct H as [_ ->]; auto.
Qed.

Lemma prepare_step_keys (acc : dict str) (kv : str * str) (k : str) :
  In k (keys (prepare_step acc kv))
  <-> In k (keys acc) \/ In k (keys (sanitize_entry kv)).
Proof.
destruct kv as [key value]; unfold prepare_step, sanitize_entry; cbn [fst snd].
destruct (mem_str (lower key) platform_headers); [simpl; tauto|].
destruct (PyStr.eqb (lower key) "x-my-x-forwarded-for");
  rewrite In_keys_set_iff; simpl; intuition congruence.
Qed.

Lemma prepare_fold_keys (hs : Headers) (acc : dict str) (k : str) :
  In k (keys (fold_left prepare_step hs acc))
  <-> In k (keys acc) \/ In k (keys (sanitized hs)).
Proof.
revert acc; induction hs as [|kv hs IH]; intros acc; cbn [fold_left].
- simpl; tauto.
- rewrite IH, prepare_step_keys.
  unfold sanitized, keys; cbn [flat_map]; rewrite map_app, in_app_iff; tauto.
Qed.

Lemma sanitized_keys_pass (hs : Headers) (k : str) :
  In k (keys (sanitized hs)) ->
  mem_str (lower k) platform_headers = false
  /\ lower k <> "x-my-x-forwarded-for".
Proof.
induction hs as [|kv hs IH]; [intros []|].
unfold sanitized, keys; cbn [flat_map]; rewrite map_app, in_app_iff.
intros [H|H]; [|now apply IH].
apply sanitize_entry_keys in H as [D H].
destruct (PyStr.eqb (lower (fst kv)) "x-my-x-forwarded-for") eqn:E; subst k.
- split; [reflexivity|discriminate].
- split; [exact D|now apply eqb_neq].
Qed.

Lemma passing_key_sanitized (hs : Headers) (k : str) :
  In k (map fst hs) ->
  mem_str (lower k) platform_headers = false ->
  lower k <> "x-my-x-forwarded-for" ->
  In k (keys (sanitized hs)).
Proof.
intros Hin D N; induction hs as [|kv hs IH]; [destruct Hin|].
unfold sanitized, keys; cbn [flat_map]; rewrite map_app, in_app_iff.
destruct Hin as [<-|Hin]; [left|right; now apply IH].
apply sanitize_entry_keys; split; [exact D|].
apply eqb_neq in N; now rewrite N.
Qed.

Lemma add_forwarded_for_keys (random : Random) (d : dict str) (k : str) :
  In k (keys (add_forwarded_for random d))
  <-> In k (keys d) \/ (has_forwarded_for d = false /\ k = "X-Forwarded-For").
Proof.
unfold add_forwarded_for.
destruct (has_forwarded_for d) eqn:E; cbn [negb].
- split; [auto|intros [H|[[=] _]]; exact H].
- rewrite In_keys_set_iff; intuition.
Qed.

Lemma consumed_names (x : str) :
  ~ In x [ "host" : str; "cf-connecting-ip" : str; "cf-ipcountry" : str;
           "cf-ray" : str; "cf-visitor" : str; "x-my-x-forwarded-for" : str ]
  <-> mem_str x platform_headers = false /\ x <> "x-my-x-forwarded-for".
Proof.
rewrite mem_str_false; unfold platform_headers; simpl; intuition.
Qed.

(** X4. For any request header list (names in any case, repeated or
    not), the names on the downstream fetch are told apart as follows.
    None of them is a platform header ([host], [cf-connecting-ip],
    [cf-ipcountry], [cf-ray], [cf-visitor]) or [x-my-x-forwarded-for], up
    to case.  Every request header name outside those is among them,
    spelled as in the request.  And each of them is a request header name
    or [X-Forwarded-For]. *)
Theorem forwarded_header_names {NC : NetlocChecks}
  (fetch : str -> FetchInit -> FetchResult) (random : Random)
  (request : Request) (env : Env) (o : Outcome) (t : str) (i : FetchInit) :
  on_fetch fetch random request env = Ok o ->
  In (t, i) (fetch_calls o) ->
  (forall k, In k (keys (init_headers i)) ->
     ~ In (lower k)
         [ "host" : str; "cf-connecting-ip" : str; "cf-ipcountry" : str;
           "cf-ray" : str; "cf-visitor" : str;
           "x-my-x-forwarded-for" : str ])
  /\ (forall k, In k (map fst (headers request)) ->
        ~ In (lower k)
            [ "host" : str; "cf-connecting-ip" : str; "cf-ipcountry" : str;
              "cf-ray" : str; "cf-visitor" : str;
              "x-my-x-forwarded-for" : str ] ->
        In k (keys (init_headers i)))
  /\ (forall k, In k (keys (init_headers i)) ->
        k = "X-Forwarded-For" \/ In k (map fst (headers request))).
Proof.
intros H Hin; destruct (fetch_call_init _ _ _ _ _ _ _ H Hin) as [-> _].
unfold fetch_init; cbn [init_headers].
split; [|split].
- intros k Hk; apply consumed_names.
  apply add_forwarded_for_keys in Hk as [Hk|[_ ->]];
    [|split; [reflexivity|discriminate]].
  rewrite prepare_headers_fold in Hk; apply prepare_fold_keys in Hk as [[]|Hk].
  now apply sanitized_keys_pass in Hk.
- intros k Hk D; apply consumed_names in D as [D N].
  apply add_forwarded_for_keys; left.
  rewrite prepare_headers_fold; apply prepare_fold_keys; right.
  now apply passing_key_sanitized.
- intros k Hk; apply add_forwarded_for_keys in Hk as [Hk|[_ ->]]; [|now left].
  rewrite prepare_headers_fold in Hk; apply prepare_fold_keys in Hk as [[]|Hk].
  apply In_keys_sanitized in Hk as [Hk|[-> _]]; auto.
Qed.

(** The request of the handler's own test: two platform headers among two
    ordinary ones. *)
Lemma forwarded_header_names_witness :
  In ("X-Custom" : str)
    (keys (init_headers
       (fetch_init random0
          (get_request "http://worker.dev/?url=https://example.com"
             [ ("X-Custom" : str, "value" : str);
               ("Host" : str, "worker.dev" : str);
               ("Cf-Ray" : str, "12345" : str);
               ("User-Agent" : str, "TestAgent" : str) ]))))
  /\ (In ("Host" : str)
        (keys (init_headers
           (fetch_init random0
              (get_request "http://worker.dev/?url=https://example.com"
                 [ ("X-Custom" : str, "value" : str);
                   ("Host" : str, "worker.dev" : str);
                   ("Cf-Ray" : str, "12345" : str);
                   ("User-Agent" : str, "TestAgent" : str) ])))) -> False).
Proof.
pose (req := get_request "http://worker.dev/?url=https://example.com"
               [ ("X-Custom" : str, "value" : str);
                 ("Host" : str, "worker.dev" : str);
                 ("Cf-Ray" : str, "12345" : str);
                 ("User-Agent" : str, "TestAgent" : str) ]).
assert (H : on_fetch (NC := lax_checks) fetch_ok random0 req []
            = Ok (proxied_outcome random0 req []
                    ("https://example.com" : str) sample_fetched))
  by (vm_compute; reflexivity).
destruct (forwarded_header_names (NC := lax_checks) fetch_ok random0 req []
            _ _ _ H (or_introl eq_refl)) as (A & B & _).
split.
- apply B; [left; reflexivity|].
  simpl; intuition discriminate.
- intros Hin; apply A in Hin; apply Hin; left; reflexivity.
Defined.

(** ** The path form of the target *)









(** ** Sanitizing twice *)

Lemma prepare_fold_NoDup (hs : Headers) (acc : dict str) :
  NoDup (keys acc) -> NoDup (keys (fold_left prepare_step hs acc)).
Proof.
revert acc; induction hs as [|[key value] hs IH]; intros acc H;
  cbn [fold_left]; [exact H|].
apply IH; unfold prepare_step.
destruct (mem_str (lower key) platform_headers); [exact H|].
destruct (PyStr.eqb (lower key) "x-my-x-forwarded-for");
  now apply NoDup_keys_set.
Qed.

Lemma sanitized_passing (d : Headers) :
  (forall k, In k (map fst d) ->
     mem_str (lower k) platform_headers = false
     /\ lower k <> "x-my-x-forwarded-for") ->
  sanitized d = d.
Proof.
induction d as [|[k v] d IH]; intros H; [reflexivity|].
unfold sanitized; cbn [flat_map]; fold (sanitized d).
rewrite IH by (intros x Hx; apply H; now right).
destruct (H k (or_introl eq_refl)) as [D N]; apply eqb_neq in N.
unfold sanitize_entry; cbn [fst snd]; now rewrite D, N.
Qed.

Lemma add_forwarded_for_has (random : Random) (d : dict str) :
  has_forwarded_for (add_forwarded_for random d) = true.
Proof.
unfold add_forwarded_for.
destruct (has_forwarded_for d) eqn:E; cbn [negb]; [exact E|].
unfold has_forwarded_for; apply existsb_exists.
exists ("X-Forwarded-For" : str); split; [|reflexivity].
apply In_keys_set_iff; now left.
Qed.

(** X6. Sanitizing is idempotent: when the header map a relay sends
    downstream is the header list of a request to a second relay, the
    second relay sends the same map, with the same [X-Forwarded-For]
    value and without drawing a new one. *)
Theorem second_relay_keeps_headers (random1 random2 : Random)
  (request : Request) (m u : str) (b : option str) :
  init_headers
    (fetch_init random2
       (mkRequest m u (init_headers (fetch_init random1 request)) b))
  = init_headers (fetch_init random1 request).
Proof.
unfold fetch_init; cbn [init_headers headers].
set (h1 := add_forwarded_for random1 (prepare_headers (headers request))).
assert (N : NoDup (keys h1)).
{ unfold h1, add_forwarded_for.
  assert (N0 : NoDup (keys (prepare_headers (headers request))))
    by (rewrite prepare_headers_fold; apply prepare_fold_NoDup; constructor).
  destruct (negb _); [now apply NoDup_keys_set|exact N0]. }
assert (P : forall k, In k (map fst h1) ->
              mem_str (lower k) platform_headers = false
              /\ lower k <> "x-my-x-forwarded-for").
{ intros k Hk; apply add_forwarded_for_keys in Hk as [Hk|[_ ->]];
    [|split; [reflexivity|discriminate]].
  rewrite prepare_headers_fold in Hk; apply prepare_fold_keys in Hk as [[]|Hk].
  now apply sanitized_keys_pass in Hk. }
assert (E : prepare_headers h1 = h1).
{ rewrite prepare_headers_distinct; rewrite (sanitized_passing h1 P);
    [reflexivity|now apply distinct_NoDup]. }
rewrite E.
apply (proj2 (add_forwarded_for_spec random2 h1)).
apply add_forwarded_for_has.
Qed.

(** ** [create_error_response] off its defaults *)

(** X7. [create_error_response] with a [details] dict and a non-empty
    [cors_headers] dict: the status is the one given; the JSON body holds
    the fields of [details] and, unless [details] has an [error] field of
    its own, the message under [error]; the headers are those of
    [cors_headers] and, unless it names [Content-Type] itself,
    [Content-Type: application/json], so a default CORS header that
    [cors_headers] leaves out is absent.  An empty [details] or
    [cors_headers] dict counts as none given. *)
Theorem error_response_custom (message : str) (details : dict json)
  (st : nat) (cors : dict str) :
  NoDup (keys details) -> NoDup (keys cors) -> cors <> [] ->
  status (create_error_response message (Some details) st (Some cors)) = st
  /\ (exists body,
        resp_body (create_error_response message (Some details) st (Some cors))
        = BodyJson body
        /\ forall k,
             get k body
             = match get k details with
               | Some v => Some v
               | None => if PyStr.eqb k "error" then Some (JString message)
                         else None
               end)
  /\ (forall k,
        get k (resp_headers
                 (create_error_response message (Some details) st (Some cors)))
        = match get k cors with
          | Some v => Some v
          | None => if PyStr.eqb k "Content-Type"
                    then Some ("application/json" : str) else None
          end)
  /\ create_error_response message (Some []) st (Some [])
     = create_error_response message None st None.
Proof.
intros Nd Nc Hc; unfold create_error_response, Response_json.
cbn [status resp_body resp_headers].
split; [reflexivity|]; split; [|split; [|reflexivity]].
- eexists; split; [reflexivity|]; intros k.
  destruct details as [|kv details]; cbn [PyDict.truthy].
  + reflexivity.
  + rewrite get_update by exact Nd; reflexivity.
- intros k; destruct cors as [|kv cors]; [congruence|]; cbn [PyDict.truthy].
  rewrite get_update by exact Nc; reflexivity.
Qed.

(** The call of the handler's own test, with a custom origin. *)
Lemma error_response_custom_witness :
  get "Access-Control-Allow-Origin"
    (resp_headers
       (create_error_response "Err" (Some []) 500
          (Some [("Access-Control-Allow-Origin" : str, "example.com" : str)])))
  = Some ("example.com" : str)
  /\ get "Access-Control-Allow-Methods"
       (resp_headers
          (create_error_response "Err" (Some []) 500
             (Some [("Access-Control-Allow-Origin" : str, "example.com" : str)])))
     = None.
Proof.
destruct (error_response_custom "Err" [] 500
            [("Access-Control-Allow-Origin" : str, "example.com" : str)]
            ltac:(constructor)
            ltac:(repeat constructor; intros [])
            ltac:(discriminate)) as (_ & _ & H & _).
split; apply H.
Defined.

End HandlerExtras.

(* ================================================================== *)
(** * Further properties of the client transport and the pool *)
(* ================================================================== *)

Module TransportExtras.

Import PyDict UrlLib Spec StrFacts DictFacts Utf8Facts QuoteFacts UrlFacts.
Import QueryFacts Aux.
Import Vocabulary.

(** ** The [Host] header *)








(** ** The pool *)



(** X26. The constructor of the manager fails in four ways and no other:
    with [ValueError] "No workers found in the provided source." for an
    empty list and for a file without records; with the [OSError] of
    [Path.exists] when the path cannot be examined; with
    [FileNotFoundError] naming the path for a file that does not exist;
    with [ValueError] "Failed to parse worker file: ..." and the cause when
    reading or validating the file raises. *)
Theorem manager_init_failures
  (path_exists : str -> Exc.answer bool)
  (read_records : str -> Exc.answer (list str))
  (source : Manager.Source) (e : Exc.error) :
  Manager.__init__ path_exists read_records source = Exc.Exn e
  <-> (e = Exc.EValueError "No workers found in the provided source."
       /\ (source = Manager.SourceList []
           \/ exists path,
                source = Manager.SourcePath path
                /\ path_exists path = Exc.Returned true
                /\ read_records path = Exc.Returned []))
      \/ (exists path cause,
            source = Manager.SourcePath path
            /\ path_exists path = Exc.Failed cause
            /\ e = Exc.EOSError cause)
      \/ (exists path,
            source = Manager.SourcePath path
            /\ path_exists path = Exc.Returned false
            /\ e = Exc.EFileNotFoundError ("Worker file not found: " ++ path))
      \/ (exists path cause,
            source = Manager.SourcePath path
            /\ path_exists path = Exc.Returned true
            /\ read_records path = Exc.Failed cause
            /\ e = Exc.EValueError ("Failed to parse worker file: " ++ cause)).
Proof.
unfold Manager.__init__, Manager.load_from_file; split.
- destruct source as [[|u urls]|path]; cbn [negb].
  + intros [= <-]; left; auto.
  + intros [=].
  + destruct (path_exists path) as [[|]|cause] eqn:P; cbn [negb].
    * destruct (read_records path) as [[|u urls]|cause] eqn:R; cbn [negb].
      -- intros [= <-]; left; split; [reflexivity|right; exists path; auto].
      -- intros [=].
      -- intros [= <-]; right; right; right; exists path, cause; auto.
    * intros [= <-]; right; right; left; exists path; auto.
    * intros [= <-]; right; left; exists path, cause; auto.
- intros [[-> [->|(path & -> & P & R)]]
         |[(path & cause & -> & P & ->)
          |[(path & -> & P & ->)|(path & cause & -> & P & R & ->)]]].
  + reflexivity.
  + rewrite P, R; reflexivity.
  + rewrite P; reflexivity.
  + rewrite P; reflexivity.
  + rewrite P, R; reflexivity.
Qed.

(** A path whose name is too long for the file system. *)
Lemma manager_init_failures_witness :
  Manager.__init__ (fun _ => Exc.Failed "File name too long")
    (fun _ => Exc.Failed []) (Manager.SourcePath "workers.json")
  = Exc.Exn (Exc.EOSError "File name too long").
Proof.
apply (proj2 (manager_init_failures (fun _ => Exc.Failed "File name too long")
                (fun _ => Exc.Failed [])
                (Manager.SourcePath "workers.json")
                (Exc.EOSError "File name too long"))).
right; left; exists ("workers.json" : str), ("File name too long" : str); auto.
Defined.

(** ** From the transport to the relay *)







(** ** URLs that come through unchanged *)








End TransportExtras.

(* ================================================================== *)
(** * Properties of token validation *)
(* ================================================================== *)

Module ValidationProps.

Import StrFacts Vocabulary.
Import Validation.

Lemma In_set_add (p x : str) (s : list str) :
  In p (set_add x s) <-> p = x \/ In p s.
Proof.
unfold set_add; destruct (mem_str x s) eqn:E.
- apply mem_str_In in E; split; [auto|intros [->|H]; auto].
- rewrite in_app_iff; simpl; intuition.
Qed.

Lemma In_set_update (p : str) (xs s : list str) :
  In p (set_update s xs) <-> In p s \/ In p xs.
Proof.
unfold set_update; revert s; induction xs as [|x xs IH]; intros s;
  cbn [fold_left]; [simpl; tauto|].
rewrite IH, In_set_add; simpl; intuition.
Qed.

Lemma In_named_groups (p : str) (policy : Policy) :
  In p (named_groups policy)
  <-> PyStr.truthy p = true
      /\ exists group,
           In group (permission_groups policy) /\ group_name group = Some p.
Proof.
unfold named_groups; rewrite in_flat_map; split.
- intros (g & Hg & H); destruct (group_name g) as [n|] eqn:E; [|destruct H].
  destruct (PyStr.truthy n) eqn:T; [|destruct H].
  destruct H as [<-|[]]; split; [exact T|exists g; auto].
- intros (T & g & Hg & E); exists g; split; [exact Hg|].
  rewrite E, T; now left.
Qed.

Lemma In_granted_fold (p : str) (ps : list Policy) (acc : list str) :
  In p (fold_left
          (fun current_permissions policy =>
             if negb (PyStr.eqb (effect policy) "allow")
             then current_permissions
             else set_update current_permissions (named_groups policy))
          ps acc)
  <-> In p acc \/ (PyStr.truthy p = true /\ grants ps p).
Proof.
revert acc; induction ps as [|policy ps IH]; intros acc; cbn [fold_left].
- split; [auto|intros [H|(_ & pol & g & [] & _)]; exact H].
- rewrite IH; destruct (PyStr.eqb (effect policy) "allow") eqn:E; cbn [negb].
  + apply eqb_eq in E; rewrite In_set_update, In_named_groups; split.
    * intros [[H|(T & g & Hg & Hn)]|(T & pol & g & Hp & He & Hg & Hn)]; auto.
      -- right; split; [exact T|]; exists policy, g; simpl; auto.
      -- right; split; [exact T|]; exists pol, g; simpl; auto.
    * intros [H|(T & pol & g & [<-|Hp] & He & Hg & Hn)]; auto.
      -- left; right; split; [exact T|]; exists g; auto.
      -- right; split; [exact T|]; exists pol, g; auto.
  + apply eqb_neq in E; split.
    * intros [H|(T & pol & g & Hp & He & Hg & Hn)]; auto.
      right; split; [exact T|]; exists pol, g; simpl; auto.
    * intros [H|(T & pol & g & [<-|Hp] & He & Hg & Hn)]; auto; [congruence|].
      right; split; [exact T|]; exists pol, g; auto.
Qed.

Lemma In_granted (p : str) (ps : list Policy) :
  In p WORKER_PERMISSIONS ->
  (In p (granted_permissions ps) <-> grants ps p).
Proof.
intros Hp; unfold granted_permissions; rewrite In_granted_fold.
assert (T : PyStr.truthy p = true)
  by (destruct Hp as [<-|[<-|[<-|[<-|[]]]]]; reflexivity).
split; [intros [[]|[_ H]]; exact H|auto].
Qed.

(** X12. [check_token_permissions] passes exactly when the token has
    policies and each of the four worker permissions is the name of a
    permission group in some policy whose effect is [allow]; groups of
    policies with another effect do not count.  When it refuses for
    missing permissions, the set it reports holds exactly the worker
    permissions that no [allow] policy grants.  Its other refusal is for a
    token, or a policy list, that is [None]. *)
Theorem check_token_permissions_spec (token_response : option Token) :
  match check_token_permissions token_response with
  | Passed _ =>
      exists token ps,
        token_response = Some token /\ policies token = Some ps
        /\ forall p, In p WORKER_PERMISSIONS -> grants ps p
  | Refused (Missing_permissions missing) =>
      exists token ps,
        token_response = Some token /\ policies token = Some ps
        /\ missing <> []
        /\ forall p, In p missing <-> In p WORKER_PERMISSIONS /\ ~ grants ps p
  | Refused (ValueError_text msg) =>
      msg = "Token policies not found."
      /\ (token_response = None
          \/ exists token, token_response = Some token /\ policies token = None)
  end.
Proof.
unfold check_token_permissions.
destruct token_response as [token|]; [|split; [reflexivity|now left]].
destruct (policies token) as [ps|] eqn:P;
  [|split; [reflexivity|right; exists token; auto]].
assert (M : forall p,
          In p (filter (fun p => negb (mem_str p (granted_permissions ps)))
                  WORKER_PERMISSIONS)
          <-> In p WORKER_PERMISSIONS /\ ~ grants ps p).
{ intros p; rewrite filter_In, negb_true_iff, mem_str_false.
  split; intros [Hp H]; (split; [exact Hp|]);
    intros G; apply H; now apply (In_granted p ps Hp). }
destruct (filter (fun p => negb (mem_str p (granted_permissions ps)))
            WORKER_PERMISSIONS) as [|m ms] eqn:F.
- exists token, ps; split; [reflexivity|]; split; [exact P|].
  intros p Hp.
  destruct (mem_str p (granted_permissions ps)) eqn:E.
  + apply mem_str_In in E; now apply (In_granted p ps Hp).
  + exfalso; apply mem_str_false in E.
    apply (proj2 (M p)); split; [exact Hp|].
    intros G; apply E; now apply (In_granted p ps Hp).
- exists token, ps; split; [reflexivity|]; split; [exact P|].
  split; [discriminate|exact M].
Qed.

End ValidationProps.

(* ================================================================== *)
(** * Properties of the deployment service *)
(* ================================================================== *)

Module ServiceProps.

Import PyDict StrFacts DictFacts Vocabulary.
Import Exc Service.

(** ** Names and the prefix *)

Lemma startswith_app (a b : str) : startswith a (a ++ b) = true.
Proof.
induction a as [|c a IH]; [reflexivity|].
cbn [app startswith]; now rewrite Ascii.eqb_refl, IH.
Qed.

Lemma has_prefix_app (worker_prefix rest : str) :
  has_prefix worker_prefix (worker_prefix ++ "-" ++ rest) = true.
Proof.
unfold has_prefix; rewrite app_assoc; apply startswith_app.
Qed.

Lemma has_prefix_truthy (worker_prefix name : str) :
  has_prefix worker_prefix name = true -> PyStr.truthy name = true.
Proof.
unfold has_prefix; destruct name; [|reflexivity].
destruct worker_prefix; discriminate.
Qed.

Lemma str_of_uint_digits (d : Decimal.uint) :
  forallb is_digit (str_of_uint d) = true.
Proof. induction d; cbn [str_of_uint forallb]; auto. Qed.

Lemma choice_lowercase (raw : nat) :
  is_lower (choice ascii_lowercase raw) = true.
Proof.
unfold choice.
assert (B : raw mod List.length (ascii_lowercase : str) < 26)
  by (apply Nat.mod_upper_bound; discriminate).
remember (raw mod List.length (ascii_lowercase : str)) as i eqn:E; clear E.
do 26 (destruct i as [|i]; [reflexivity|]); lia.
Qed.

(** X13. A name made by [generate_worker_name] is the prefix, a dash, a
    run of decimal digits, a dash and six lower-case letters.  The service
    recognises it as its own: [delete_worker] passes it to the API, and
    [list_workers] keeps a script that has it as id. *)
Theorem generated_name_is_owned (worker_prefix : str) (now : nat)
  (random : nat -> nat) (scripts_delete : str -> answer unit)
  (c m u : option str) :
  (exists timestamp random_suffix,
     generate_worker_name worker_prefix now random
     = worker_prefix ++ "-" ++ timestamp ++ "-" ++ random_suffix
     /\ forallb is_digit timestamp = true
     /\ List.length random_suffix = 6
     /\ forallb is_lower random_suffix = true)
  /\ has_prefix worker_prefix (generate_worker_name worker_prefix now random)
     = true
  /\ snd (delete_worker worker_prefix scripts_delete
            (generate_worker_name worker_prefix now random))
     = [ScriptsDelete (generate_worker_name worker_prefix now random)]
  /\ list_entry worker_prefix
       (mkScript (Some (generate_worker_name worker_prefix now random)) c m u)
     = [mkInfo (generate_worker_name worker_prefix now random) c m u].
Proof.
assert (P : has_prefix worker_prefix
              (generate_worker_name worker_prefix now random) = true)
  by apply has_prefix_app.
split; [|split; [exact P|split]].
- eexists _, _; split; [reflexivity|]; split; [apply str_of_uint_digits|].
  split; [reflexivity|].
  cbn [seq map forallb]; rewrite !choice_lowercase; reflexivity.
- unfold delete_worker; rewrite P; cbn [negb].
  destruct (scripts_delete _); reflexivity.
- unfold list_entry; cbn [script_id script_created_on script_modified_on
                           script_usage_model].
  rewrite P, (has_prefix_truthy _ _ P); reflexivity.
Qed.

(** X14. Scoping by prefix is by text only: a service whose prefix is
    [p] also takes for its own every name that a service with a prefix
    [p-q] generates. *)
Theorem prefix_scopes_overlap (p q : str) (now : nat) (random : nat -> nat) :
  has_prefix p (generate_worker_name (p ++ "-" ++ q) now random) = true.
Proof.
unfold generate_worker_name; rewrite <- !app_assoc; apply has_prefix_app.
Qed.

(** ** Listing and deleting *)

Lemma list_entry_ids (worker_prefix : str) (scripts : list Script) :
  map w_id (flat_map (list_entry worker_prefix) scripts)
  = filter (has_prefix worker_prefix) (script_ids scripts).
Proof.
induction scripts as [|s scripts IH]; [reflexivity|].
unfold script_ids in *; cbn [flat_map]; rewrite map_app, filter_app, IH.
f_equal; unfold list_entry.
destruct (script_id s) as [i|]; [|reflexivity].
destruct (has_prefix worker_prefix i) eqn:P; cbn [filter]; rewrite P.
- rewrite (has_prefix_truthy _ _ P); reflexivity.
- rewrite orb_true_r; reflexivity.
Qed.

(** X15. [list_workers] calls the API once.  When the call returns, the
    workers it lists are, in the order the API gave them, the scripts
    whose id starts with the prefix followed by a dash, each with the
    time stamps and usage model the API reported; scripts without id are
    skipped.  When the call raises, [list_workers] raises [RuntimeError]
    with the cause in its text. *)
Theorem list_workers_spec (worker_prefix : str)
  (scripts_list : answer (list Script)) :
  snd (list_workers worker_prefix scripts_list) = [ScriptsList]
  /\ match scripts_list with
     | Returned scripts =>
         exists workers,
           fst (list_workers worker_prefix scripts_list) = Val workers
           /\ map w_id workers
              = filter (has_prefix worker_prefix) (script_ids scripts)
           /\ forall w, In w workers ->
                In (mkScript (Some (w_id w)) (w_created_on w)
                      (w_modified_on w) (w_usage_model w)) scripts
     | Failed e =>
         fst (list_workers worker_prefix scripts_list)
         = Exn (ERuntimeError ("Failed to list workers: " ++ e))
     end.
Proof.
destruct scripts_list as [scripts|e]; cbn [list_workers fst snd];
  split; try reflexivity.
eexists; split; [reflexivity|]; split; [apply list_entry_ids|].
intros w Hw; apply in_flat_map in Hw as (s & Hs & Hw).
unfold list_entry in Hw; destruct s as [[i|] c m u]; cbn in Hw; [|destruct Hw].
destruct (negb (PyStr.truthy i) || negb (has_prefix worker_prefix i));
  [destruct Hw|].
destruct Hw as [<-|[]]; exact Hs.
Qed.

Lemma delete_worker_calls (worker_prefix : str)
  (scripts_delete : str -> answer unit) (name : str) (c : ApiCall) :
  In c (snd (delete_worker worker_prefix scripts_delete name)) ->
  c = ScriptsDelete name /\ has_prefix worker_prefix name = true.
Proof.
unfold delete_worker.
destruct (has_prefix worker_prefix name); cbn [negb]; [|intros []].
destruct (scripts_delete name); cbn [snd]; intros [<-|[]]; auto.
Qed.

(** X16. [delete_worker] calls the API for no name but the one it is
    given, and only when that name starts with the prefix followed by a
    dash.  For any other name it raises [ValueError] without a call.  For
    a name with the prefix it makes exactly one call, and returns when
    the call returns, or raises [RuntimeError] when the call raises. *)
Theorem delete_worker_guard (worker_prefix : str)
  (scripts_delete : str -> answer unit) (name : str) :
  (forall c, In c (snd (delete_worker worker_prefix scripts_delete name)) ->
     c = ScriptsDelete name /\ has_prefix worker_prefix name = true)
  /\ (has_prefix worker_prefix name = false ->
      exists msg,
        delete_worker worker_prefix scripts_delete name
        = (Exn (EValueError msg), []))
  /\ (has_prefix worker_prefix name = true ->
      snd (delete_worker worker_prefix scripts_delete name)
      = [ScriptsDelete name]
      /\ match scripts_delete name with
         | Returned _ =>
             fst (delete_worker worker_prefix scripts_delete name) = Val tt
         | Failed e =>
             fst (delete_worker worker_prefix scripts_delete name)
             = Exn (ERuntimeError
                      ("Failed to delete worker " ++ name ++ ": " ++ e))
         end).
Proof.
split; [intros c; apply delete_worker_calls|].
unfold delete_worker; split; intros P; rewrite P; cbn [negb].
- eexists; reflexivity.
- destruct (scripts_delete name); auto.
Qed.

(** ** The subdomain *)

(** X17. [ensure_subdomain] answers from its cache once it has
    succeeded: the value it returns is non-empty and is the new cached
    value, and every later call returns it without calling the API.  When
    it fails it raises [SubdomainMissingError] and leaves the cache as it
    was.  The only call it ever makes is the one reading the subdomain,
    at most once. *)
Theorem ensure_subdomain_spec (cached : option str)
  (subdomains_get : answer (option (option str))) :
  match ensure_subdomain cached subdomains_get with
  | (Val s, cached', calls) =>
      PyStr.truthy s = true /\ cached' = Some s
      /\ (calls = [] \/ calls = [SubdomainsGet])
      /\ forall later, ensure_subdomain cached' later = (Val s, cached', [])
  | (Exn e, cached', calls) =>
      e = ESubdomainMissingError SUBDOMAIN_MISSING
      /\ cached' = cached /\ calls = [SubdomainsGet]
  end.
Proof.
unfold ensure_subdomain.
destruct cached as [[|c0 s0]|]; cbn [Worker.truthy_opt PyStr.truthy];
  [destruct subdomains_get as [[[[|c s]|]|]|e]| |
   destruct subdomains_get as [[[[|c s]|]|]|e]];
  cbn [PyStr.truthy Worker.truthy_opt]; repeat split; auto.
Qed.

(** ** Deploying *)

Section DeployProps.

Variable WorkerType : Type.
Variable WORKER_META : WorkerType -> WorkerMeta.
Variable CONTENT_TYPES_get : WorkerType -> option str.
Variable CONTENT_TYPES_wasm : option str.
Variable COMPATIBILITY_DATE : str.

Local Notation "'upload' config" :=
  (ScriptsUpdate (name WorkerType config)
     (deploy_metadata WorkerType WORKER_META COMPATIBILITY_DATE config)
     (deploy_files WorkerType WORKER_META CONTENT_TYPES_get CONTENT_TYPES_wasm
        config))
  (at level 10, config at level 9, only parsing).

Local Notation "'body' config ans cached" :=
  (deploy_body WorkerType WORKER_META CONTENT_TYPES_get CONTENT_TYPES_wasm
     COMPATIBILITY_DATE config ans cached)
  (at level 10, config at level 9, ans at level 9, cached at level 9,
   only parsing).

Local Notation "'route' config" :=
  (ScriptSubdomainCreate (name WorkerType config))
  (at level 10, config at level 9, only parsing).

(** X18. One attempt of [deploy_worker] uploads the script first, with
    the metadata and files built from the configuration.  It enables the
    workers.dev route of the script only once the upload has returned,
    and reads the subdomain only once the route is enabled.  When all
    three steps succeed it returns
    [https://<name>.<subdomain>.workers.dev] for a non-empty subdomain,
    which it leaves cached.  When a step fails, no later step is made,
    the cache is as before, and the exception is a [RuntimeError] whose
    text starts with [Deployment failed: ]. *)
Theorem deploy_attempt_spec (config : DeploymentConfig WorkerType)
  (ans : Answers) (cached : option str) :
  match body config ans cached with
  | (inl url, cached', calls) =>
      (exists subdomain,
         url = "https://" ++ name WorkerType config ++ "." ++ subdomain
               ++ ".workers.dev"
         /\ PyStr.truthy subdomain = true /\ cached' = Some subdomain)
      /\ (exists u1 u2,
            scripts_update ans = Returned u1
            /\ subdomain_create ans = Returned u2)
      /\ (calls = [upload config; ScriptSubdomainCreate (name WorkerType config)]
          \/ calls = [upload config;
                      ScriptSubdomainCreate (name WorkerType config);
                      SubdomainsGet])
  | (inr e, cached', calls) =>
      (exists cause, e = ERuntimeError ("Deployment failed: " ++ cause))
      /\ cached' = cached
      /\ match scripts_update ans with
         | Failed _ => calls = [upload config]
         | Returned _ =>
             match subdomain_create ans with
             | Failed _ =>
                 calls = [upload config;
                          ScriptSubdomainCreate (name WorkerType config)]
             | Returned _ =>
                 calls = [upload config;
                          ScriptSubdomainCreate (name WorkerType config);
                          SubdomainsGet]
             end
         end
  end.
Proof.
unfold deploy_body.
destruct (scripts_update ans) as [u1|e1];
  [|split; [eexists; reflexivity|auto]].
destruct (subdomain_create ans) as [u2|e2];
  [|split; [eexists; reflexivity|auto]].
unfold ensure_subdomain.
destruct cached as [[|c0 s0]|]; cbn [Worker.truthy_opt PyStr.truthy];
  [destruct (subdomains_get ans) as [[[[|c s]|]|]|e]| |
   destruct (subdomains_get ans) as [[[[|c s]|]|]|e]];
  cbn [PyStr.truthy app];
  try (split; [eexists; reflexivity|auto]);
  (split; [eexists; repeat split; reflexivity|]);
  (split; [exists u1, u2; auto|auto]).
Qed.

(** A failed attempt leaves the cache as it was; a successful one fills
    it.  Either way the attempt uploads once. *)
Lemma deploy_body_result (config : DeploymentConfig WorkerType)
  (ans : Answers) (cached : option str) :
  exists r cached' calls,
    body config ans cached = (r, cached', calls)
    /\ count_updates calls = 1
    /\ List.length (enabled_routes calls) <= 1
    /\ (forall c, In c calls ->
          c = upload config \/ c = route config \/ c = SubdomainsGet)
    /\ if attempt_succeeds ans cached
       then exists subdomain,
              r = inl ("https://" ++ name WorkerType config ++ "." ++ subdomain
                       ++ ".workers.dev")
              /\ cached' = Some subdomain
              /\ Worker.truthy_opt cached' = true
       else cached' = cached
            /\ exists cause,
                 r = inr (ERuntimeError ("Deployment failed: " ++ cause)).
Proof.
unfold deploy_body, attempt_succeeds.
destruct (scripts_update ans) as [u1|e1].
2:{ eexists _, _, _; split; [reflexivity|]; cbn.
    repeat split; auto; [intros c [<-|[]]; auto|eexists; reflexivity]. }
destruct (subdomain_create ans) as [u2|e2].
2:{ eexists _, _, _; split; [reflexivity|]; cbn.
    repeat split; auto; [intros c [<-|[<-|[]]]; auto|eexists; reflexivity]. }
unfold ensure_subdomain.
destruct cached as [[|c0 s0]|]; cbn [Worker.truthy_opt PyStr.truthy orb];
  [destruct (subdomains_get ans) as [[[[|c s]|]|]|e]| |
   destruct (subdomains_get ans) as [[[[|c s]|]|]|e]];
  cbn [PyStr.truthy app];
  (eexists _, _, _; split; [reflexivity|]; cbn;
   split; [reflexivity|]; split; [lia|]; split;
   [intros x Hx; repeat (destruct Hx as [<-|Hx]; auto); destruct Hx|]);
  try (split; [reflexivity|eexists; reflexivity]);
  (eexists; repeat split; reflexivity).
Qed.

(** X19. [deploy_worker] makes up to three attempts and stops at the
    first that goes through: it uploads once if the first attempt goes
    through, twice if only the second does, and three times otherwise.
    It returns the URL of the worker exactly when one of the three goes
    through, and raises [RetryError] around a [RuntimeError] otherwise.
    Every upload is the same upload, and no route is enabled more often
    than the script was uploaded. *)
Theorem deploy_worker_retries (config : DeploymentConfig WorkerType)
  (answers : nat -> Answers) (cached : option str) :
  match
    deploy_worker WorkerType WORKER_META CONTENT_TYPES_get CONTENT_TYPES_wasm
      COMPATIBILITY_DATE config answers cached
  with
  | (r, cached', calls) =>
      count_updates calls
      = (if attempt_succeeds (answers 0) cached then 1
         else if attempt_succeeds (answers 1) cached then 2 else 3)
      /\ List.length (enabled_routes calls) <= count_updates calls
      /\ (forall c, In c calls ->
            c = upload config \/ c = route config \/ c = SubdomainsGet)
      /\ match r with
         | Tenacity.Done url =>
             attempt_succeeds (answers 0) cached
             || attempt_succeeds (answers 1) cached
             || attempt_succeeds (answers 2) cached = true
             /\ exists subdomain,
                  url = "https://" ++ name WorkerType config ++ "." ++ subdomain
                        ++ ".workers.dev"
                  /\ cached' = Some subdomain
         | Tenacity.RetryError e =>
             attempt_succeeds (answers 0) cached
             || attempt_succeeds (answers 1) cached
             || attempt_succeeds (answers 2) cached = false
             /\ cached' = cached
             /\ exists cause, e = ERuntimeError ("Deployment failed: " ++ cause)
         end
  end.
Proof.
unfold deploy_worker, Tenacity.retry3; cbn [Tenacity.retry_from].
destruct (deploy_body_result config (answers 0) cached)
  as (r0 & c0 & l0 & -> & U0 & E0 & I0 & R0).
destruct (attempt_succeeds (answers 0) cached).
{ destruct R0 as (s & -> & -> & _); cbn [orb].
  repeat split; auto; [lia|exists s; auto]. }
destruct R0 as (-> & m0 & ->).
destruct (deploy_body_result config (answers 1) cached)
  as (r1 & c1 & l1 & -> & U1 & E1 & I1 & R1).
unfold count_updates, enabled_routes in *.
destruct (attempt_succeeds (answers 1) cached).
{ destruct R1 as (s & -> & -> & _); cbn [orb].
  rewrite filter_app, flat_map_app, !length_app.
  repeat split; auto; [lia|lia| |exists s; auto].
  intros c Hc; apply in_app_iff in Hc as [Hc|Hc]; auto. }
destruct R1 as (-> & m1 & ->).
destruct (deploy_body_result config (answers 2) cached)
  as (r2 & c2 & l2 & -> & U2 & E2 & I2 & R2).
unfold count_updates, enabled_routes in *.
assert (I : forall c, In c (l0 ++ l1 ++ l2) ->
              c = upload config \/ c = route config \/ c = SubdomainsGet).
{ intros c Hc; apply in_app_iff in Hc as [Hc|Hc]; auto.
  apply in_app_iff in Hc as [Hc|Hc]; auto. }
destruct (attempt_succeeds (answers 2) cached).
- destruct R2 as (s & -> & -> & _); cbn [orb].
  rewrite !filter_app, !flat_map_app, !length_app.
  repeat split; auto; [lia|lia|exists s; auto].
- destruct R2 as (-> & m2 & ->); cbn [orb].
  rewrite !filter_app, !flat_map_app, !length_app.
  repeat split; auto; [lia|lia|exists m2; auto].
Qed.

(** ** The CORS headers of a deployed worker *)

(** X20. The bindings [deploy_worker] uploads make a deployed Python
    worker hand the same three CORS headers to every response it builds,
    those of [CORS_HEADERS] under their exact names: on a relayed response
    they come from the bindings, and the bindings carry the very values the
    handler writes on its preflight and error responses.  A header that
    bears one of these names in another casing is found on a relayed
    response only, and is then a header of the downstream response, passed
    on beside the worker's own. *)
Theorem deployed_worker_cors {NC : UrlLib.NetlocChecks}
  (config : DeploymentConfig WorkerType)
  (fetch : str -> Js.FetchInit -> Js.FetchResult) (random : Worker.Random)
  (request : Js.Request) (o : Worker.Outcome) (k v : str) :
  Worker.on_fetch fetch random request
    (env_of_bindings
       (md_bindings
          (deploy_metadata WorkerType WORKER_META COMPATIBILITY_DATE config)))
  = Ok o ->
  In (k, v) CORS_HEADERS ->
  get k (Js.resp_headers (Worker.response o)) = Some v
  /\ (forall k',
        In k' (keys (Js.resp_headers (Worker.response o))) ->
        lower k' = lower k -> k' <> k ->
        exists t i r,
          Worker.fetch_calls o = [(t, i)]
          /\ fetch t i = Js.Resolved r
          /\ In k' (map fst (Js.f_headers r))).
Proof.
intros H Hin.
change (env_of_bindings
          (md_bindings
             (deploy_metadata WorkerType WORKER_META COMPATIBILITY_DATE config)))
  with (env_of_bindings (bindings)) in H.
apply HandlerFacts.on_fetch_ends in H.
assert (C : Worker.cors_headers (env_of_bindings bindings) = Worker.DEFAULT_CORS)
  by reflexivity.
assert (G : get k Worker.DEFAULT_CORS = Some v).
{ destruct Hin as [[= <- <-]|[[= <- <-]|[[= <- <-]|[]]]]; reflexivity. }
assert (K : PyStr.eqb k "Content-Type" = false).
{ destruct Hin as [[= <- <-]|[[= <- <-]|[[= <- <-]|[]]]]; reflexivity. }
assert (O : forall k',
          In k' (("Content-Type" : str) :: keys Worker.DEFAULT_CORS) ->
          lower k' = lower k -> k' <> k -> False).
{ intros k' Hk L N.
  destruct Hin as [[= <- <-]|[[= <- <-]|[[= <- <-]|[]]]];
    cbn in Hk; decompose [or] Hk; subst; try contradiction;
    try (apply N; reflexivity); vm_compute in L; discriminate. }
destruct H as [M|t M R T|t r M R T F|t e M R T F].
- split; [exact G|].
  intros k' Hk L N; exfalso; apply (O k'); auto; now right.
- cbn [Worker.response Aux.missing_target_outcome].
  rewrite HandlerFacts.error_response_details; cbn [Js.resp_headers get].
  rewrite K; split; [exact G|].
  intros k' Hk L N; exfalso; now apply (O k').
- cbn [Worker.response Aux.proxied_outcome Js.Response_new Js.resp_headers
       Worker.fetch_calls].
  split; [rewrite ResponseProps.get_proxied_header, C, G; reflexivity|].
  intros k' Hk L N; apply In_keys_update in Hk as [Hk|Hk].
  + exists t, (Worker.fetch_init random request), r.
    repeat split; [exact F|].
    now apply ResponseProps.response_headers_from.
  + exfalso; apply (O k'); auto; right; rewrite <- C; exact Hk.
- cbn [Worker.response Aux.proxy_error_outcome].
  rewrite HandlerFacts.error_response_plain; cbn [Js.resp_headers get].
  rewrite K; split; [exact G|].
  intros k' Hk L N; exfalso; now apply (O k').
Qed.

End DeployProps.
(** ** Loading the source of a worker *)

Section SourceProps.

Variable WORKER_META : dict WorkerMeta.
Variable read_resource : str -> str -> ReadResult.
Variable utf8_valid : str -> bool.

(** X25. What [get_worker_source] returns is read from the packaged
    resources, and decodes as UTF-8.  For the type [rust] the script is
    [index.js] of the build package, whatever source file [WORKER_META]
    names, and it always comes with the WASM artifact that [WORKER_META]
    names.  For every other type the script is the source file of the
    type's own package and there is never a WASM artifact.  The
    exceptions of its own it raises are [ValueError] for a type that
    [WORKER_META] does not have, and [FileNotFoundError] otherwise. *)
Theorem get_worker_source_spec (worker_type : str) :
  match get_worker_source WORKER_META read_resource utf8_valid worker_type with
  | Loaded (script, wasm) =>
      exists meta,
        get worker_type WORKER_META = Some meta
        /\ utf8_valid script = true
        /\ if PyStr.eqb worker_type "rust"
           then exists file content,
                  wasm = Some content /\ wasm_file meta = Some file
                  /\ read_resource "proxyflare.workers.rust.build" "index.js"
                     = ReadBytes script
                  /\ read_resource "proxyflare.workers.rust.build" file
                     = ReadBytes content
           else wasm = None
                /\ read_resource ("proxyflare.workers." ++ worker_type)
                     (source_file meta)
                   = ReadBytes script
  | LoadError e =>
      (get worker_type WORKER_META = None
       /\ e = EValueError ("Unknown worker type: " ++ worker_type))
      \/ (exists meta msg,
            get worker_type WORKER_META = Some meta
            /\ e = EFileNotFoundError msg)
  | LibraryError _ => exists meta, get worker_type WORKER_META = Some meta
  end.
Proof.
unfold get_worker_source, _get_resource_source.
destruct (get worker_type WORKER_META) as [meta|]; [|left; auto].
destruct (PyStr.eqb worker_type "rust") eqn:R; cbn [andb].
- destruct (read_resource "proxyflare.workers.rust.build" "index.js")
    as [script| | |msg] eqn:S;
    try (right; eexists _, _; split; reflexivity);
    try (exists meta; reflexivity).
  destruct (wasm_file meta) as [file|] eqn:W; cbn [Worker.truthy_opt].
  + destruct (PyStr.truthy file) eqn:T.
    * destruct (read_resource "proxyflare.workers.rust.build" file)
        as [content| | |msg] eqn:C;
        try (right; eexists _, _; split; reflexivity);
        try (exists meta; reflexivity).
      cbn [andb]; destruct (utf8_valid script) eqn:V; [|exists meta; reflexivity].
      exists meta; split; [reflexivity|]; split; [exact V|].
      exists file, content; auto.
    * right; eexists _, _; split; reflexivity.
  + right; eexists _, _; split; reflexivity.
- destruct (read_resource ("proxyflare.workers." ++ worker_type)
              (source_file meta)) as [script| | |msg] eqn:S;
    try (right; eexists _, _; split; reflexivity);
    try (exists meta; reflexivity).
  destruct (utf8_valid script) eqn:V; [|exists meta; reflexivity].
  exists meta; auto.
Qed.

End SourceProps.


(** A relayed response of a worker deployed with the bindings. *)
Lemma deployed_worker_cors_witness :
  get "Access-Control-Allow-Methods"
    (Js.resp_headers
       (Worker.response
          (Aux.proxied_outcome Spec.random0
             (Spec.get_request "http://worker.dev/?url=https://example.com" [])
             sample_deployed_env ("https://example.com" : str)
             Spec.sample_fetched)))
  = Some ("GET, POST, PUT, DELETE, OPTIONS, PATCH, HEAD" : str).
Proof.
exact (proj1
         (deployed_worker_cors unit sample_meta "2025-01-01"
            (NC := Spec.lax_checks) sample_config Spec.fetch_ok Spec.random0
            (Spec.get_request "http://worker.dev/?url=https://example.com" [])
            _ ("Access-Control-Allow-Methods" : str)
            ("GET, POST, PUT, DELETE, OPTIONS, PATCH, HEAD" : str)
            ltac:(vm_compute; reflexivity)
            ltac:(right; left; reflexivity))).
Defined.

End ServiceProps.

(* ================================================================== *)
(** * Properties of the [delete] command and of the health check *)
(* ================================================================== *)

Module CommandProps.

Import PyDict StrFacts Vocabulary.
Import Exc Service DeleteCmd.

Lemma In_deletions (n : str) (events : list Event) :
  In n (deletions events) <-> In (Called (ScriptsDelete n)) events.
Proof.
unfold deletions; rewrite in_flat_map; split.
- intros (ev & Hev & H); destruct ev as [[|m|? ? ?|?|]| |]; cbn in H;
    try contradiction.
  destruct H as [<-|[]]; exact Hev.
- intros H; exists (Called (ScriptsDelete n)); split; [exact H|now left].
Qed.

Lemma deletions_app (a b : list Event) :
  deletions (a ++ b) = deletions a ++ deletions b.
Proof. apply flat_map_app. Qed.

Lemma deletions_printed {A} (f : A -> Message) (l : list A) :
  deletions (map (fun x => Printed (f x)) l) = [].
Proof. induction l; auto. Qed.

Lemma deletions_found (count : nat) (worker_prefix : str)
  (workers : list WorkerInfo) :
  deletions
    (Printed (MsgFound count worker_prefix)
     :: map (fun w => Printed (MsgItem (w_id w))) workers)
  = [].
Proof. apply (deletions_printed (fun w => MsgItem (w_id w))). Qed.

Lemma deletions_asked (force : bool) :
  deletions (if negb force then [Asked] else []) = [].
Proof. destruct force; reflexivity. Qed.

Lemma deletions_deletes (names : list str) :
  deletions (map Called (map ScriptsDelete names)) = names.
Proof. induction names as [|n names IH]; cbn; [|rewrite <- IH at 2]; auto. Qed.

Lemma deletions_list (worker_prefix : str) (a : answer (list Script)) :
  deletions (map Called (snd (list_workers worker_prefix a))) = [].
Proof. destruct a; reflexivity. Qed.

Section Runs.

Variable confirm : bool.
Variable scripts_list : nat -> answer (list Script).
Variable scripts_delete : str -> answer unit.

(** The names the loop of [_run] asks the API to delete carry the
    prefix. *)
Lemma delete_each_owned (worker_prefix : str) (workers : list WorkerInfo)
  (n : str) :
  In n (deletions
          (map Called (snd (delete_each scripts_delete worker_prefix workers)))) ->
  has_prefix worker_prefix n = true.
Proof.
induction workers as [|w workers IH]; cbn [delete_each]; [intros []|].
destruct (Service.delete_worker worker_prefix scripts_delete (w_id w))
  as [r calls] eqn:D.
destruct (delete_each scripts_delete worker_prefix workers)
  as [[deleted failed] calls'].
assert (G : In n (deletions (map Called (calls ++ calls'))) ->
            has_prefix worker_prefix n = true).
{ rewrite map_app, deletions_app, in_app_iff; intros [H|H]; [|now apply IH].
  apply In_deletions, in_map_iff in H as (c & [= ->] & Hc).
  replace calls with
    (snd (Service.delete_worker worker_prefix scripts_delete (w_id w))) in Hc
    by now rewrite D.
  apply ServiceProps.delete_worker_calls in Hc as [[= <-] P]; exact P. }
destruct r; exact G.
Qed.

(** The loop of [_run] on workers that carry the prefix. *)
Lemma delete_each_spec (worker_prefix : str) (workers : list WorkerInfo) :
  Forall (fun w => has_prefix worker_prefix (w_id w) = true) workers ->
  delete_each scripts_delete worker_prefix workers
  = (filter (fun n => match scripts_delete n with
                      | Returned _ => true
                      | Failed _ => false
                      end) (map w_id workers),
     filter (fun n => match scripts_delete n with
                      | Returned _ => false
                      | Failed _ => true
                      end) (map w_id workers),
     map ScriptsDelete (map w_id workers)).
Proof.
induction 1 as [|w workers P _ IH]; [reflexivity|].
cbn [delete_each map filter]; rewrite IH.
unfold Service.delete_worker; rewrite P; cbn [negb].
destruct (scripts_delete (w_id w)); reflexivity.
Qed.

(** X21. Whatever its arguments, the user's answer and the answers of
    the API, the [delete] command asks the API to delete only names that
    start with the configured prefix followed by a dash; without a valid
    configuration it deletes nothing. *)
Theorem delete_command_only_owned (app_context : option str)
  (name : option str) (all_workers force : bool) (n : str) :
  In n (deletions
          (snd (delete_worker app_context confirm scripts_list scripts_delete
                  name all_workers force))) ->
  exists worker_prefix,
    app_context = Some worker_prefix /\ has_prefix worker_prefix n = true.
Proof.
unfold delete_worker.
destruct (negb (Worker.truthy_opt name) && negb all_workers); [intros []|].
destruct (Worker.truthy_opt name && all_workers); [intros []|].
destruct app_context as [worker_prefix|]; [|intros []].
intros H; exists worker_prefix; split; [reflexivity|].
destruct all_workers.
- unfold _delete_all_workers in H; cbv zeta in H.
  destruct (Service.list_workers worker_prefix (scripts_list 0))
    as [snapshot calls0] eqn:L0.
  assert (C0 : deletions (map Called calls0) = []).
  { replace calls0 with (snd (Service.list_workers worker_prefix (scripts_list 0)))
      by now rewrite L0.
    apply deletions_list. }
  destruct snapshot as [[|w0 ws0]|e0]; cbn [snd] in H.
  + rewrite deletions_app, C0 in H; destruct H.
  + destruct (negb force && negb confirm).
    * cbn [snd] in H.
      rewrite !deletions_app, C0, deletions_found, deletions_asked in H.
      destruct H.
    * destruct (Service.list_workers worker_prefix (scripts_list 1))
        as [second calls1] eqn:L1.
      assert (C1 : deletions (map Called calls1) = []).
      { replace calls1 with
          (snd (Service.list_workers worker_prefix (scripts_list 1)))
          by now rewrite L1.
        apply deletions_list. }
      destruct second as [workers|e1]; cbn [snd] in H.
      -- pose proof (delete_each_owned worker_prefix workers n) as O.
         destruct (delete_each scripts_delete worker_prefix workers)
           as [[deleted failed] calls2]; cbn [snd] in *.
         rewrite !deletions_app, C0, deletions_found, deletions_asked,
           map_app, deletions_app, C1 in H.
         cbn [app] in H; apply in_app_iff in H as [H|H]; [now apply O|].
         exfalso; destruct failed as [|f failed]; [destruct H|].
         rewrite deletions_app, deletions_printed in H; destruct H.
      -- rewrite !deletions_app, C0, deletions_found, deletions_asked, C1 in H.
         destruct H.
  + rewrite C0 in H; destruct H.
- destruct name as [nm|]; [|destruct H].
  unfold _delete_single_worker in H.
  destruct (negb force && negb confirm).
  + cbn [snd] in H; rewrite deletions_app, deletions_asked in H; destruct H.
  + destruct (Service.delete_worker worker_prefix scripts_delete nm)
      as [r calls] eqn:D.
    assert (G : In n (deletions (map Called calls)) ->
                has_prefix worker_prefix n = true).
    { intros G; apply In_deletions, in_map_iff in G as (c & [= ->] & Hc).
      replace calls with
        (snd (Service.delete_worker worker_prefix scripts_delete nm)) in Hc
        by now rewrite D.
      apply ServiceProps.delete_worker_calls in Hc as [[= <-] P]; exact P. }
    destruct r as [u|[m|m|m|m|m|m]]; cbn [snd] in H;
      rewrite ?deletions_app, deletions_asked in H; cbn [app] in H;
      try (apply in_app_iff in H as [H|[]]); auto.
Qed.

(** X22. Nothing is deleted when the command is given both a name and
    [--all] or neither, and nothing is deleted when it runs without
    [--force] and the user does not confirm. *)
Theorem declined_or_invalid_deletes_nothing (app_context : option str)
  (name : option str) (all_workers force : bool) :
  Worker.truthy_opt name = all_workers \/ (force = false /\ confirm = false) ->
  deletions
    (snd (delete_worker app_context confirm scripts_list scripts_delete
            name all_workers force))
  = [].
Proof.
intros H; unfold delete_worker.
destruct (Worker.truthy_opt name) eqn:T, all_workers; cbn [negb andb];
  try reflexivity;
  (destruct H as [H|[-> C]]; [discriminate|]);
  (destruct app_context as [worker_prefix|]; [|reflexivity]).
- unfold _delete_single_worker; destruct name as [nm|]; [|reflexivity].
  rewrite C; reflexivity.
- unfold _delete_all_workers; cbv zeta.
  destruct (Service.list_workers worker_prefix (scripts_list 0))
    as [snapshot calls0] eqn:L0.
  assert (C0 : deletions (map Called calls0) = []).
  { replace calls0 with (snd (Service.list_workers worker_prefix (scripts_list 0)))
      by now rewrite L0.
    apply deletions_list. }
  destruct snapshot as [[|w0 ws0]|e0]; cbn [snd].
  + now rewrite deletions_app, C0.
  + rewrite C; cbn [negb andb snd].
    now rewrite !deletions_app, C0, deletions_found.
  + exact C0.
Qed.

(** X23. A [delete --all] that goes ahead lists the workers a second
    time and deletes from that second listing: the names it asks the API
    to delete are, in order, the ids of the second listing that carry the
    prefix, whatever the first listing, which was shown to the user, held.
    It then returns, and reports how many of these deletions the API
    carried out. *)
Theorem delete_all_uses_second_listing (worker_prefix : str) (force : bool)
  (first second : list Script) :
  force = true \/ confirm = true ->
  scripts_list 0 = Returned first ->
  scripts_list 1 = Returned second ->
  filter (has_prefix worker_prefix) (script_ids first) <> [] ->
  fst (delete_worker (Some worker_prefix) confirm scripts_list scripts_delete
         None true force)
  = Returns
  /\ deletions
       (snd (delete_worker (Some worker_prefix) confirm scripts_list
               scripts_delete None true force))
     = filter (has_prefix worker_prefix) (script_ids second)
  /\ In (Printed
           (MsgDeletedCount
              (List.length
                 (filter (fun n => match scripts_delete n with
                                   | Returned _ => true
                                   | Failed _ => false
                                   end)
                    (filter (has_prefix worker_prefix) (script_ids second))))))
       (snd (delete_worker (Some worker_prefix) confirm scripts_list
               scripts_delete None true force)).
Proof.
intros Go L0 L1 Ne.
unfold delete_worker; cbn [Worker.truthy_opt negb andb].
unfold _delete_all_workers; cbv zeta; rewrite L0, L1; cbn [Service.list_workers].
assert (Ne' : flat_map (list_entry worker_prefix) first <> []).
{ intros E; apply Ne; rewrite <- ServiceProps.list_entry_ids, E; reflexivity. }
destruct (flat_map (list_entry worker_prefix) first) as [|w0 ws0]; [congruence|].
assert (G : negb force && negb confirm = false)
  by (destruct Go as [-> | ->]; [reflexivity|apply andb_false_r]).
rewrite G.
assert (O : Forall (fun w => has_prefix worker_prefix (w_id w) = true)
              (flat_map (list_entry worker_prefix) second)).
{ apply Forall_forall; intros w Hw.
  apply (in_map w_id) in Hw; rewrite ServiceProps.list_entry_ids in Hw.
  now apply filter_In in Hw. }
rewrite (delete_each_spec worker_prefix _ O), ServiceProps.list_entry_ids.
cbn [fst snd]; split; [reflexivity|]; split.
- rewrite !deletions_app, deletions_found, deletions_asked.
  change (map Called ([ScriptsList] ++ ?l)) with (Called ScriptsList :: map Called l).
  cbn [app].
  change (deletions (Called ScriptsList :: ?l)) with (deletions l).
  rewrite deletions_deletes.
  destruct (filter _ (filter (has_prefix worker_prefix) (script_ids second)))
    as [|f failed] at 2.
  + cbn; now rewrite app_nil_r.
  + rewrite deletions_app, deletions_printed; cbn; now rewrite app_nil_r.
- rewrite !in_app_iff; do 4 right; left; now left.
Qed.

End Runs.

(** [delete proxyflare-1-aaaaaa --force] under the prefix [proxyflare]. *)
Lemma delete_command_only_owned_witness :
  exists worker_prefix,
    Some ("proxyflare" : str) = Some worker_prefix
    /\ has_prefix worker_prefix ("proxyflare-1-aaaaaa" : str) = true.
Proof.
exact (delete_command_only_owned true sample_listings sample_delete
         (Some ("proxyflare" : str)) (Some ("proxyflare-1-aaaaaa" : str))
         false true ("proxyflare-1-aaaaaa" : str)
         ltac:(left; reflexivity)).
Defined.

(** [delete proxyflare-1-aaaaaa] answered with no. *)
Lemma declined_or_invalid_deletes_nothing_witness :
  deletions
    (snd (delete_worker (Some ("proxyflare" : str)) false sample_listings
            sample_delete (Some ("proxyflare-1-aaaaaa" : str)) false false))
  = [].
Proof.
exact (declined_or_invalid_deletes_nothing false sample_listings sample_delete
         (Some ("proxyflare" : str)) (Some ("proxyflare-1-aaaaaa" : str))
         false false (or_intror (conj eq_refl eq_refl))).
Defined.

(** [delete --all --force] while the set of workers changes: the worker
    of the first listing is shown, the worker of the second is deleted. *)
Lemma delete_all_uses_second_listing_witness :
  fst (delete_worker (Some ("proxyflare" : str)) false sample_listings
         sample_delete None true true)
  = Returns
  /\ deletions
       (snd (delete_worker (Some ("proxyflare" : str)) false sample_listings
               sample_delete None true true))
     = [("proxyflare-2-bbbbbb" : str)]
  /\ In (Printed (MsgDeletedCount 1))
       (snd (delete_worker (Some ("proxyflare" : str)) false sample_listings
               sample_delete None true true)).
Proof.
exact (delete_all_uses_second_listing false sample_listings sample_delete
         ("proxyflare" : str) true
         [sample_script "proxyflare-1-aaaaaa"]
         [sample_script "proxyflare-2-bbbbbb"; sample_script "other"]
         (or_introl eq_refl) eq_refl eq_refl ltac:(discriminate)).
Defined.

(** ** The health check *)

(** X24. [check_health] makes exactly one GET per call and returns
    [True] when it returns and [False] when it raises.  Its retry
    decorator never comes into play: the body turns every exception into
    [False], so the first attempt always returns and [RetryError] is
    never raised. *)
Theorem check_health_single_attempt (gets : nat -> answer nat) (url : str) :
  Tester.check_health gets url
  = (Tenacity.Done
       (match gets 0 with Returned _ => true | Failed _ => false end),
     tt, [Tester.HttpGet url]).
Proof.
unfold Tester.check_health, Tenacity.retry3; cbn [Tenacity.retry_from].
unfold Tester.check_health_body; destruct (gets 0); reflexivity.
Qed.

End CommandProps.
